(** * The listener reconciler of the ALB ingress controller

    A shallow embedding of [pkg/alb/ls/listener.go]: the constructors of a
    [Listener], its [Reconcile] method and the three mutations [create],
    [modify] and [delete] it dispatches to, and the field-level diff
    [needsModification].

    Go pointers are options ([None] is [nil]), Go slices are optional lists
    (the [nil] slice is [None], which differs from the empty slice for deep
    equality but indexes the same way), a nil dereference or an index out of
    range is a panic.  The methods mutate the receiver and talk to the
    control plane, so they are written in a small state monad over a [World]
    that holds the receiver, the log of control-plane requests and the log of
    emitted events. *)

From Stdlib Require Import ZArith List String Bool Lia.
Import ListNotations.

Local Open Scope string_scope.

(** ** Go values *)

Definition ptr (A : Type) : Type := option A.
Definition slice (A : Type) : Type := option (list A).

(** [s[0]]: [None] when the index is out of range (nil or empty slice). *)
Definition index0 {A : Type} (s : slice A) : option A :=
  match s with
  | Some (x :: _) => Some x
  | _ => None
  end.

(** [len(s)] *)
Definition len {A : Type} (s : slice A) : nat :=
  match s with
  | Some xs => List.length xs
  | None => 0
  end.

(** A Go [error] value, identified with the text its [Error()] returns. *)
Definition error : Type := string.

(** ** Deep equality

    [util.DeepEqual] lives in [pkg/util/types], one overloaded function on
    [interface{}] values; here it is a class with one instance per type the
    listener compares. *)

Class DeepEq (A : Type) : Type := {
  DeepEqual : A -> A -> bool
}.

(** Modelled from the spec: [util.DeepEqual] of [pkg/util/types] is missing;
    the spec describes it as structural, order-sensitive deep equality (not
    pointer identity), so on pointers it compares the pointed values and on
    slices it compares element by element, in order. *)
Definition DeepEqual_ptr {A : Type} (eqA : A -> A -> bool) (p q : ptr A) : bool :=
  match p, q with
  | None, None => true
  | Some x, Some y => eqA x y
  | _, _ => false
  end.

Fixpoint DeepEqual_elems {A : Type} (eqA : A -> A -> bool) (xs ys : list A) : bool :=
  match xs, ys with
  | [], [] => true
  | x :: xs', y :: ys' => eqA x y && DeepEqual_elems eqA xs' ys'
  | _, _ => false
  end.

#[export] Instance DeepEq_int64 : DeepEq Z :=
  {| DeepEqual := Z.eqb |}.

#[export] Instance DeepEq_string : DeepEq string :=
  {| DeepEqual := String.eqb |}.

#[export] Instance DeepEq_ptr {A : Type} `{DeepEq A} : DeepEq (ptr A) :=
  {| DeepEqual := DeepEqual_ptr DeepEqual |}.

#[export] Instance DeepEq_elems {A : Type} `{DeepEq A} : DeepEq (list A) :=
  {| DeepEqual := DeepEqual_elems DeepEqual |}.

(** ** The SDK structures ([aws-sdk-go/service/elbv2])

    Only the fields the listener code reads or writes. *)

Module elbv2.

Record Certificate : Type := mkCertificate {
  CertificateArn : ptr string
}.

Record Action : Type := mkAction {
  Type_ : ptr string;
  TargetGroupArn : ptr string
}.

Record Listener : Type := mkListener {
  Certificates : slice (ptr Certificate);
  DefaultActions : slice (ptr Action);
  ListenerArn : ptr string;
  LoadBalancerArn : ptr string;
  Port : ptr Z;
  Protocol : ptr string;
  SslPolicy : ptr string
}.

Definition set_LoadBalancerArn (v : ptr string) (l : Listener) : Listener :=
  mkListener (Certificates l) (DefaultActions l) (ListenerArn l) v
             (Port l) (Protocol l) (SslPolicy l).

Definition set_DefaultActions (v : slice (ptr Action)) (l : Listener) : Listener :=
  mkListener (Certificates l) v (ListenerArn l) (LoadBalancerArn l)
             (Port l) (Protocol l) (SslPolicy l).

Definition set_Certificates (v : slice (ptr Certificate)) (l : Listener) : Listener :=
  mkListener v (DefaultActions l) (ListenerArn l) (LoadBalancerArn l)
             (Port l) (Protocol l) (SslPolicy l).

Definition set_Protocol (v : ptr string) (l : Listener) : Listener :=
  mkListener (Certificates l) (DefaultActions l) (ListenerArn l) (LoadBalancerArn l)
             (Port l) v (SslPolicy l).

Definition set_SslPolicy (v : ptr string) (l : Listener) : Listener :=
  mkListener (Certificates l) (DefaultActions l) (ListenerArn l) (LoadBalancerArn l)
             (Port l) (Protocol l) v.

(** [l.DefaultActions[0].TargetGroupArn = v]; [None] when the statement
    panics: index out of range, or a nil action at index 0. *)
Definition assign_TargetGroupArn0 (v : ptr string) (l : Listener) : option Listener :=
  match DefaultActions l with
  | Some (Some a :: rest) =>
      Some (set_DefaultActions (Some (Some (mkAction (Type_ a) v) :: rest)) l)
  | _ => None
  end.

Record CreateListenerInput : Type := mkCreateListenerInput {
  create_Certificates : slice (ptr Certificate);
  create_LoadBalancerArn : ptr string;
  create_Protocol : ptr string;
  create_Port : ptr Z;
  create_SslPolicy : ptr string;
  create_DefaultActions : slice (ptr Action)
}.

Record ModifyListenerInput : Type := mkModifyListenerInput {
  modify_ListenerArn : ptr string;
  modify_Certificates : slice (ptr Certificate);
  modify_Port : ptr Z;
  modify_Protocol : ptr string;
  modify_SslPolicy : ptr string;
  modify_DefaultActions : slice (ptr Action)
}.

(** [CreateListenerOutput] and [ModifyListenerOutput] both carry only
    [Listeners]. *)
Record ListenerOutput : Type := mkListenerOutput {
  Listeners : slice (ptr Listener)
}.

End elbv2.

Definition DeepEqual_Certificate (x y : elbv2.Certificate) : bool :=
  DeepEqual (elbv2.CertificateArn x) (elbv2.CertificateArn y).

Definition DeepEqual_Action (x y : elbv2.Action) : bool :=
  DeepEqual (elbv2.Type_ x) (elbv2.Type_ y)
  && DeepEqual (elbv2.TargetGroupArn x) (elbv2.TargetGroupArn y).

#[export] Instance DeepEq_Certificate : DeepEq elbv2.Certificate :=
  {| DeepEqual := DeepEqual_Certificate |}.

#[export] Instance DeepEq_Action : DeepEq elbv2.Action :=
  {| DeepEqual := DeepEqual_Action |}.

(** ** The collaborators of the listener *)

(** [annotations.PortData] *)
Record PortData : Type := mkPortData {
  PortData_Port : Z;
  Scheme : string
}.

(** [albelbv2.ELBV2svc]: the process-wide control-plane client.  A call
    returns the pair Go returns, an output pointer and an error. *)
Record ELBV2 : Type := mkELBV2 {
  CreateListener : elbv2.CreateListenerInput -> ptr elbv2.ListenerOutput * option error;
  ModifyListener : elbv2.ModifyListenerInput -> ptr elbv2.ListenerOutput * option error;
  RemoveListener : ptr string -> option error
}.

(** The requests a run sent to the control plane, oldest first. *)
Inductive ApiCall : Type :=
| CallCreateListener (input : elbv2.CreateListenerInput)
| CallModifyListener (input : elbv2.ModifyListenerInput)
| CallRemoveListener (arn : ptr string).

(** [api.EventTypeNormal] and [api.EventTypeWarning] *)
Inductive EventType : Type := EventTypeNormal | EventTypeWarning.

(** An argument of the format string of an event. *)
Inductive EventArg : Type :=
| ArgInt (n : Z)
| ArgString (s : string).

(** One [rOpts.Eventf(eventtype, reason, messageFmt, args...)]. *)
Record Event : Type := mkEvent {
  eventtype : EventType;
  reason : string;
  messageFmt : string;
  args : list EventArg
}.

(** [NewDesiredListenerOptions]; the logger is left out. *)
Record NewDesiredListenerOptions : Type := mkNewDesiredListenerOptions {
  o_Port : PortData;
  o_CertificateArn : ptr string;
  o_SslPolicy : ptr string
}.

(** [NewCurrentListenerOptions]; the logger is left out. *)
Record NewCurrentListenerOptions : Type := mkNewCurrentListenerOptions {
  o_Listener : ptr elbv2.Listener
}.

(** The pair of snapshots, the struct [ls] of the package. *)
Record ls : Type := mk_ls {
  current : ptr elbv2.Listener;
  desired : ptr elbv2.Listener
}.

(** The parts of the program the listener only consumes: the rules
    collection of package [rs] with its two methods, the target-group table
    of package [tg], and the process-wide client [albelbv2.ELBV2svc]. *)
Class Collaborators : Type := {
  rs_Rule : Type;
  rs_Rules : Type;
  tg_TargetGroups : Type;
  (** [func (r Rules) DefaultRule() *Rule] *)
  rs_DefaultRule : rs_Rules -> ptr rs_Rule;
  (** [func (r *Rule) TargetGroupArn(tg.TargetGroups) *string] *)
  rs_TargetGroupArn : rs_Rule -> tg_TargetGroups -> ptr string;
  (** [func (r Rules) StripDesiredState()] and [StripCurrentState()] *)
  rs_StripDesiredState : rs_Rules -> rs_Rules;
  rs_StripCurrentState : rs_Rules -> rs_Rules;
  (** the zero value of [Rules] *)
  rs_zero : rs_Rules;
  ELBV2svc : ELBV2
}.

(** [ReconcileOptions]: its [Eventf] field is the event log of the [World]
    below, taken to be a non-nil function. *)
Record ReconcileOptions {C : Collaborators} : Type := mkReconcileOptions {
  LoadBalancerArn : ptr string;
  TargetGroups : tg_TargetGroups
}.

Arguments mkReconcileOptions {_} _ _.

(** [Listener]: the field [ls] of the struct is [ls_] here, the logger is
    left out (its calls change neither the state nor the control flow; the
    dereferences in their arguments are kept). *)
Record Listener {C : Collaborators} : Type := mkListenerT {
  ls_ : ls;
  rules : rs_Rules;
  deleted : bool
}.

Arguments mkListenerT {_} _ _ _.

(** What a method can touch: its receiver, the control plane and the event
    sink. *)
Record World {C : Collaborators} : Type := mkWorld {
  self : Listener;
  calls : list ApiCall;
  events : list Event
}.

Arguments mkWorld {_} _ _ _.

(** A run either returns a value or panics; both leave a world behind. *)
Inductive Result {C : Collaborators} (A : Type) : Type :=
| Ok (a : A) (w : World)
| Panic (w : World).

Arguments Ok {_ A} a w.
Arguments Panic {_ A} w.

Definition M {C : Collaborators} (A : Type) : Type := World -> Result A.

Definition world_of {C : Collaborators} {A : Type} (r : Result A) : World :=
  match r with
  | Ok _ w => w
  | Panic w => w
  end.

Definition panicked {C : Collaborators} {A : Type} (r : Result A) : bool :=
  match r with
  | Ok _ _ => false
  | Panic _ => true
  end.

Section Monad.

Context {C : Collaborators}.

Definition ret {A : Type} (a : A) : M A := fun w => Ok a w.

Definition bind {A B : Type} (m : M A) (k : A -> M B) : M B :=
  fun w =>
    match m w with
    | Ok a w' => k a w'
    | Panic w' => Panic w'
    end.

Definition panic {A : Type} : M A := fun w => Panic w.

(** [*p], and every selector through [p] *)
Definition deref {A : Type} (p : ptr A) : M A :=
  match p with
  | Some a => ret a
  | None => panic
  end.

(** the receiver [l] *)
Definition get_self : M Listener := fun w => Ok (self w) w.

Definition put_self (l : Listener) : M unit :=
  fun w => Ok tt (mkWorld l (calls w) (events w)).

(** [l.ls.current = c] *)
Definition set_current (c : ptr elbv2.Listener) : M unit :=
  fun w =>
    let l := self w in
    Ok tt (mkWorld (mkListenerT (mk_ls c (desired (ls_ l))) (rules l) (deleted l))
                   (calls w) (events w)).

(** [l.deleted = b] *)
Definition set_deleted (b : bool) : M unit :=
  fun w =>
    let l := self w in
    Ok tt (mkWorld (mkListenerT (ls_ l) (rules l) b) (calls w) (events w)).

(** A write through the pointer [l.ls.desired]: [f] is the assignment on the
    pointed snapshot, [None] where it panics; a nil [desired] panics. *)
Definition assign_desired (f : elbv2.Listener -> option elbv2.Listener) : M unit :=
  fun w =>
    let l := self w in
    match desired (ls_ l) with
    | None => Panic w
    | Some d =>
        match f d with
        | None => Panic w
        | Some d' =>
            Ok tt (mkWorld (mkListenerT (mk_ls (current (ls_ l)) (Some d')) (rules l) (deleted l))
                           (calls w) (events w))
        end
    end.

(** The three requests of the client; each is logged, then answered. *)
Definition call_CreateListener (input : elbv2.CreateListenerInput)
  : M (ptr elbv2.ListenerOutput * option error) :=
  fun w => Ok (CreateListener ELBV2svc input)
              (mkWorld (self w) (calls w ++ [CallCreateListener input]) (events w)).

Definition call_ModifyListener (input : elbv2.ModifyListenerInput)
  : M (ptr elbv2.ListenerOutput * option error) :=
  fun w => Ok (ModifyListener ELBV2svc input)
              (mkWorld (self w) (calls w ++ [CallModifyListener input]) (events w)).

Definition call_RemoveListener (arn : ptr string) : M (option error) :=
  fun w => Ok (RemoveListener ELBV2svc arn)
              (mkWorld (self w) (calls w ++ [CallRemoveListener arn]) (events w)).

Definition emit (e : Event) : M unit :=
  fun w => Ok tt (mkWorld (self w) (calls w) (events w ++ [e])).

(** [rOpts.Eventf(eventtype, reason, messageFmt, args...)]: Go selects
    [Eventf] through [rOpts] first (a nil [rOpts] panics), then evaluates
    the arguments [a], then calls. *)
Definition Eventf (rOpts : ptr ReconcileOptions) (ty : EventType)
  (rsn fmt : string) (a : M (list EventArg)) : M unit :=
  bind (deref rOpts) (fun _ =>
  bind a (fun vs =>
  emit (mkEvent ty rsn fmt vs))).

End Monad.

Declare Scope go_scope.
Delimit Scope go_scope with go.

Notation "x <- m ;; k" := (bind m (fun x => k))
  (at level 100, m at next level, right associativity) : go_scope.
Notation "m ;; k" := (bind m (fun _ => k))
  (at level 100, right associativity) : go_scope.

Local Open Scope go_scope.

(** ** The listener *)

Section Listener.

Context {C : Collaborators}.

(** [NewDesiredListener]; [o] is the structure behind the pointer the
    function receives and dereferences at once. *)
Definition NewDesiredListener (o : NewDesiredListenerOptions) : Listener :=
  let listener :=
    elbv2.mkListener None
      (Some [Some (elbv2.mkAction (Some "forward") None)])
      None None
      (Some (PortData_Port (o_Port o)))
      (Some "HTTP")
      None in
  let listener :=
    match o_CertificateArn o with
    | Some arn =>
        if String.eqb (Scheme (o_Port o)) "HTTPS"
        then elbv2.set_Protocol (Some "HTTPS")
               (elbv2.set_Certificates
                  (Some [Some (elbv2.mkCertificate (o_CertificateArn o))]) listener)
        else listener
    | None => listener
    end in
  let listener :=
    match o_SslPolicy o with
    | Some _ =>
        if String.eqb (Scheme (o_Port o)) "HTTPS"
        then elbv2.set_SslPolicy (o_SslPolicy o) listener
        else listener
    | None => listener
    end in
  mkListenerT (mk_ls None (Some listener)) rs_zero false.

(** [NewCurrentListener] *)
Definition NewCurrentListener (o : NewCurrentListenerOptions) : Listener :=
  mkListenerT (mk_ls (o_Listener o) None) rs_zero false.

(** [create].  Its target-group resolution,
    [defaultRule := l.rules.DefaultRule()] and, unless that is nil,
    [desired.DefaultActions[0].TargetGroupArn = defaultRule.TargetGroupArn(rOpts.TargetGroups)],
    is written out here and again in [needsModification], as in the
    source. *)
Definition create (rOpts : ptr ReconcileOptions) : M (option error) :=
  o <- deref rOpts ;;
  assign_desired (fun d => Some (elbv2.set_LoadBalancerArn (LoadBalancerArn o) d)) ;;
  l <- get_self ;;
  match rs_DefaultRule (rules l) with
  | Some defaultRule =>
      assign_desired
        (elbv2.assign_TargetGroupArn0 (rs_TargetGroupArn defaultRule (TargetGroups o)))
  | None => ret tt
  end ;;
  l <- get_self ;;
  desired <- deref (desired (ls_ l)) ;;
  a0 <- deref (index0 (elbv2.DefaultActions desired)) ;;
  a0 <- deref a0 ;;
  let input :=
    elbv2.mkCreateListenerInput
      (elbv2.Certificates desired)
      (elbv2.LoadBalancerArn desired)
      (elbv2.Protocol desired)
      (elbv2.Port desired)
      (elbv2.SslPolicy desired)
      (Some [Some (elbv2.mkAction (elbv2.Type_ a0) (elbv2.TargetGroupArn a0))]) in
  r <- call_CreateListener input ;;
  match snd r with
  | Some err =>
      Eventf rOpts EventTypeWarning "ERROR" "Error creating %v listener: %s"
        (port <- deref (elbv2.Port desired) ;; ret [ArgInt port; ArgString err]) ;;
      ret (Some err)
  | None =>
      o <- deref (fst r) ;;
      c <- deref (index0 (elbv2.Listeners o)) ;;
      set_current c ;;
      ret None
  end.

(** [modify] *)
Definition modify (rOpts : ptr ReconcileOptions) : M (option error) :=
  l <- get_self ;;
  match current (ls_ l) with
  | None => create rOpts
  | Some c =>
      desired <- deref (desired (ls_ l)) ;;
      let input :=
        elbv2.mkModifyListenerInput
          (elbv2.ListenerArn c)
          (elbv2.Certificates desired)
          (elbv2.Port desired)
          (elbv2.Protocol desired)
          (elbv2.SslPolicy desired)
          (elbv2.DefaultActions desired) in
      r <- call_ModifyListener input ;;
      match snd r with
      | Some err =>
          Eventf rOpts EventTypeWarning "ERROR" "Error modifying %v listener: %s"
            (port <- deref (elbv2.Port desired) ;; ret [ArgInt port; ArgString err]) ;;
          ret (Some err)
      | None =>
          o <- deref (fst r) ;;
          c' <- deref (index0 (elbv2.Listeners o)) ;;
          set_current c' ;;
          ret None
      end
  end.

(** [delete] *)
Definition delete (rOpts : ptr ReconcileOptions) : M (option error) :=
  l <- get_self ;;
  c <- deref (current (ls_ l)) ;;
  e <- call_RemoveListener (elbv2.ListenerArn c) ;;
  match e with
  | Some err =>
      Eventf rOpts EventTypeWarning "ERROR" "Error deleting %v listener: %s"
        (port <- deref (elbv2.Port c) ;; ret [ArgInt port; ArgString err]) ;;
      deref (elbv2.ListenerArn c) ;;
      ret (Some err)
  | None =>
      set_deleted true ;;
      ret None
  end.

(** [needsModification]: [lsc] and [lsd] are pointers, so the comparison
    reads the desired snapshot as the assignment above it left it. *)
Definition needsModification (rOpts : ptr ReconcileOptions) : M bool :=
  l <- get_self ;;
  let lsc := current (ls_ l) in
  match rOpts with
  | Some o =>
      match rs_DefaultRule (rules l) with
      | Some defaultRule =>
          assign_desired
            (elbv2.assign_TargetGroupArn0 (rs_TargetGroupArn defaultRule (TargetGroups o)))
      | None => ret tt
      end
  | None => ret tt
  end ;;
  l <- get_self ;;
  let lsd := desired (ls_ l) in
  match lsc, lsd with
  | None, None => ret false
  | None, Some _ => ret true
  | Some c, None => panic
  | Some c, Some d =>
      if negb (DeepEqual (elbv2.Port c) (elbv2.Port d)) then ret true
      else if negb (DeepEqual (elbv2.Protocol c) (elbv2.Protocol d)) then ret true
      else if negb (DeepEqual (elbv2.Certificates c) (elbv2.Certificates d)) then ret true
      else if negb (DeepEqual (elbv2.DefaultActions c) (elbv2.DefaultActions d)) then ret true
      else if negb (DeepEqual (elbv2.SslPolicy c) (elbv2.SslPolicy d)) then ret true
      else ret false
  end.

(** The arguments of the log line that ends a creation or a modification:
    [*l.ls.current.ListenerArn, *l.ls.current.Port, *l.ls.current.Protocol]. *)
Definition log_completed : M unit :=
  l <- get_self ;;
  c <- deref (current (ls_ l)) ;;
  deref (elbv2.ListenerArn c) ;;
  deref (elbv2.Port c) ;;
  deref (elbv2.Protocol c) ;;
  ret tt.

(** The argument [*l.ls.current.Port] of the three success events. *)
Definition current_Port : M (list EventArg) :=
  l <- get_self ;;
  c <- deref (current (ls_ l)) ;;
  port <- deref (elbv2.Port c) ;;
  ret [ArgInt port].

(** [Reconcile] *)
Definition Reconcile (rOpts : ptr ReconcileOptions) : M (option error) :=
  l <- get_self ;;
  match desired (ls_ l) with
  | None =>
      match current (ls_ l) with
      | None => ret None
      | Some _ =>
          e <- delete rOpts ;;
          match e with
          | Some err => ret (Some err)
          | None =>
              Eventf rOpts EventTypeNormal "DELETE" "%v listener deleted" current_Port ;;
              ret None
          end
      end
  | Some _ =>
      match current (ls_ l) with
      | None =>
          e <- create rOpts ;;
          match e with
          | Some err => ret (Some err)
          | None =>
              Eventf rOpts EventTypeNormal "CREATE" "%v listener created" current_Port ;;
              log_completed ;;
              ret None
          end
      | Some _ =>
          b <- needsModification rOpts ;;
          if b then
            e <- modify rOpts ;;
            match e with
            | Some err => ret (Some err)
            | None =>
                Eventf rOpts EventTypeNormal "MODIFY" "%v listener modified" current_Port ;;
                log_completed ;;
                ret None
            end
          else ret None
      end
  end.

(** [StripDesiredState] *)
Definition StripDesiredState : M unit :=
  l <- get_self ;;
  put_self (mkListenerT (mk_ls (current (ls_ l)) None)
                        (rs_StripDesiredState (rules l)) (deleted l)).

(** [stripCurrentState] *)
Definition stripCurrentState : M unit :=
  l <- get_self ;;
  put_self (mkListenerT (mk_ls None (desired (ls_ l)))
                        (rs_StripCurrentState (rules l)) (deleted l)).

(** [GetRules] *)
Definition GetRules : M rs_Rules :=
  l <- get_self ;;
  ret (rules l).

End Listener.

(** ** The priority table of the specification

    [priority_table] is written from the words of the specification, not from
    the source: desired absent first, then current absent, then the diff,
    then nothing. *)

Inductive Decision : Type := NoOp | Create | Modify | Delete.

Definition priority_table (current_present desired_present differs : bool) : Decision :=
  if negb desired_present then
    (if negb current_present then NoOp else Delete)
  else if negb current_present then Create
  else if differs then Modify
  else NoOp.

(** The decision a request belongs to. *)
Definition decision_of_call (c : ApiCall) : Decision :=
  match c with
  | CallCreateListener _ => Create
  | CallModifyListener _ => Modify
  | CallRemoveListener _ => Delete
  end.

Definition present {A : Type} (p : ptr A) : bool :=
  match p with
  | Some _ => true
  | None => false
  end.

(** What the client answers to a logged request. *)
Definition answer (svc : ELBV2) (c : ApiCall) : option error :=
  match c with
  | CallCreateListener input => snd (CreateListener svc input)
  | CallModifyListener input => snd (ModifyListener svc input)
  | CallRemoveListener arn => RemoveListener svc arn
  end.

(** The outcome of the diff of a run of [Reconcile], [false] where the diff
    panics. *)
Definition differs {C : Collaborators} (rOpts : ptr ReconcileOptions) (w : World) : bool :=
  match needsModification rOpts w with
  | Ok b _ => b
  | Panic _ => false
  end.

(** The decision the priority table gives for a run of [Reconcile]. *)
Definition decision {C : Collaborators} (rOpts : ptr ReconcileOptions) (w : World) : Decision :=
  priority_table (present (current (ls_ (self w))))
                 (present (desired (ls_ (self w))))
                 (differs rOpts w).

(** ** Sample collaborators

    A rules collection is a list of service names whose head is the default
    rule; the target-group table maps a service name to an ARN. *)

Fixpoint lookup_arn (tgs : list (string * string)) (svc : string) : ptr string :=
  match tgs with
  | [] => None
  | (k, v) :: rest => if String.eqb k svc then Some v else lookup_arn rest svc
  end.

(** A control plane that accepts every request and echoes it back, with the
    ARN it assigns to a new listener. *)
Definition echo_client : ELBV2 :=
  mkELBV2
    (fun i => (Some (elbv2.mkListenerOutput (Some [Some
                 (elbv2.mkListener (elbv2.create_Certificates i)
                    (elbv2.create_DefaultActions i)
                    (Some "arn:aws:elasticloadbalancing:listener/app/lb/1")
                    (elbv2.create_LoadBalancerArn i)
                    (elbv2.create_Port i) (elbv2.create_Protocol i)
                    (elbv2.create_SslPolicy i))])), None))
    (fun i => (Some (elbv2.mkListenerOutput (Some [Some
                 (elbv2.mkListener (elbv2.modify_Certificates i)
                    (elbv2.modify_DefaultActions i)
                    (elbv2.modify_ListenerArn i)
                    None
                    (elbv2.modify_Port i) (elbv2.modify_Protocol i)
                    (elbv2.modify_SslPolicy i))])), None))
    (fun _ => None).

(** A control plane that refuses every request. *)
Definition failing_client : ELBV2 :=
  mkELBV2
    (fun _ => (None, Some "AccessDenied"))
    (fun _ => (None, Some "AccessDenied"))
    (fun _ => Some "AccessDenied").

Definition sample_collaborators (svc : ELBV2) : Collaborators :=
  {| rs_Rule := string;
     rs_Rules := list string;
     tg_TargetGroups := list (string * string);
     rs_DefaultRule := fun r => match r with [] => None | x :: _ => Some x end;
     rs_TargetGroupArn := fun r tgs => lookup_arn tgs r;
     rs_StripDesiredState := fun r => r;
     rs_StripCurrentState := fun r => r;
     rs_zero := [];
     ELBV2svc := svc |}.

(** The desired snapshot of the specification's example: port 443, HTTPS,
    certificate "cert-1". *)
Definition https_443 : NewDesiredListenerOptions :=
  mkNewDesiredListenerOptions (mkPortData 443 "HTTPS") (Some "cert-1") None.


Definition Echo : Collaborators := sample_collaborators echo_client.

Definition Failing : Collaborators := sample_collaborators failing_client.

(** Options with the load balancer "arn:lb/1" and a table that sends the
    service "svc-a" to the target group [tg]. *)
Definition options_to (C : Collaborators) (tg : string)
  (tgs : list (string * string) -> @tg_TargetGroups C) : @ReconcileOptions C :=
  mkReconcileOptions (Some "arn:lb/1") (tgs [("svc-a", tg)]).

Definition echo_options : @ReconcileOptions Echo :=
  options_to Echo "arn:tg/a" (fun t => t).

Definition failing_options : @ReconcileOptions Failing :=
  options_to Failing "arn:tg/a" (fun t => t).

(** A snapshot as the control plane reports it: port 443, HTTPS,
    certificate "cert-1", forwarding to [tg], with SSL policy [ssl]. *)
Definition listener_443 (tg ssl : ptr string) : elbv2.Listener :=
  elbv2.mkListener
    (Some [Some (elbv2.mkCertificate (Some "cert-1"))])
    (Some [Some (elbv2.mkAction (Some "forward") tg)])
    (Some "arn:listener/443") (Some "arn:lb/1")
    (Some 443%Z) (Some "HTTPS") ssl.

(** The desired snapshot [NewDesiredListener] builds for [https_443], with
    its default action forwarding to [tg]. *)
Definition desired_443_to (tg : ptr string) : elbv2.Listener :=
  elbv2.mkListener
    (Some [Some (elbv2.mkCertificate (Some "cert-1"))])
    (Some [Some (elbv2.mkAction (Some "forward") tg)])
    None None (Some 443%Z) (Some "HTTPS") None.

Definition desired_443 : elbv2.Listener := desired_443_to None.


(** An HTTPS port with an SSL policy and no certificate. *)
Definition https_without_certificate : NewDesiredListenerOptions :=
  mkNewDesiredListenerOptions (mkPortData 443 "HTTPS") None
    (Some "ELBSecurityPolicy-2016-08").

(** A snapshot without default actions. *)
Definition no_actions_80 : elbv2.Listener :=
  elbv2.mkListener None None None None (Some 80%Z) (Some "HTTP") None.

(** A world with the given pair, the rules ["svc-a"] and empty logs. *)
Definition pair_world (C : Collaborators) (rs : list string -> @rs_Rules C)
  (c d : ptr elbv2.Listener) : @World C :=
  mkWorld (mkListenerT (mk_ls c d) (rs ["svc-a"]) false) [] [].

Definition echo_world (c d : ptr elbv2.Listener) : @World Echo :=
  pair_world Echo (fun r => r) c d.

Definition failing_world (c d : ptr elbv2.Listener) : @World Failing :=
  pair_world Failing (fun r => r) c d.

(** A control plane that accepts every request and answers a creation or
    a modification with no snapshot. *)
Definition mute_client : ELBV2 :=
  mkELBV2
    (fun _ => (Some (elbv2.mkListenerOutput None), None))
    (fun _ => (Some (elbv2.mkListenerOutput (Some [])), None))
    (fun _ => None).

Definition Mute : Collaborators := sample_collaborators mute_client.

Definition mute_options : @ReconcileOptions Mute :=
  options_to Mute "arn:tg/a" (fun t => t).

Definition mute_world (c d : ptr elbv2.Listener) : @World Mute :=
  pair_world Mute (fun r => r) c d.

(** ** Vocabulary of the statements *)

(** The world after a write of [d] to the desired snapshot. *)
Definition with_desired {C : Collaborators} (d : ptr elbv2.Listener) (w : World) : World :=
  mkWorld (mkListenerT (mk_ls (current (ls_ (self w))) d)
                       (rules (self w)) (deleted (self w)))
          (calls w) (events w).

(** The world after a write of [c] to the current snapshot. *)
Definition with_current {C : Collaborators} (c : ptr elbv2.Listener) (w : World) : World :=
  mkWorld (mkListenerT (mk_ls c (desired (ls_ (self w))))
                       (rules (self w)) (deleted (self w)))
          (calls w) (events w).

(** The world after one more request. *)
Definition with_call {C : Collaborators} (c : ApiCall) (w : World) : World :=
  mkWorld (self w) (calls w ++ [c]) (events w).

(** The target-group resolution on a desired snapshot [d], for rules [r] and
    the target groups [tgs]: the snapshot it leaves, [None] where it
    panics. *)
Definition resolved {C : Collaborators} (r : rs_Rules) (tgs : tg_TargetGroups)
  (d : elbv2.Listener) : option elbv2.Listener :=
  match rs_DefaultRule r with
  | Some defaultRule =>
      elbv2.assign_TargetGroupArn0 (rs_TargetGroupArn defaultRule tgs) d
  | None => Some d
  end.

(** The resolution [needsModification] runs under its guard [rOpts != nil]. *)
Definition resolved_if {C : Collaborators} (rOpts : ptr ReconcileOptions)
  (r : rs_Rules) (d : elbv2.Listener) : option elbv2.Listener :=
  match rOpts with
  | Some o => resolved r (TargetGroups o) d
  | None => Some d
  end.

(** The five compared fields agree. *)
Definition same_fields (c d : elbv2.Listener) : Prop :=
  elbv2.Port c = elbv2.Port d /\
  elbv2.Protocol c = elbv2.Protocol d /\
  elbv2.Certificates c = elbv2.Certificates d /\
  elbv2.DefaultActions c = elbv2.DefaultActions d /\
  elbv2.SslPolicy c = elbv2.SslPolicy d.

(** The five comparisons of [needsModification], as one boolean. *)
Definition same_fieldsb (c d : elbv2.Listener) : bool :=
  DeepEqual (elbv2.Port c) (elbv2.Port d)
  && DeepEqual (elbv2.Protocol c) (elbv2.Protocol d)
  && DeepEqual (elbv2.Certificates c) (elbv2.Certificates d)
  && DeepEqual (elbv2.DefaultActions c) (elbv2.DefaultActions d)
  && DeepEqual (elbv2.SslPolicy c) (elbv2.SslPolicy d).

(** [needsModification] gets to its assignment: the options are not nil and
    the rules have a default rule. *)
Definition resolves {C : Collaborators} (rOpts : ptr ReconcileOptions) (r : rs_Rules) : bool :=
  present rOpts && present (rs_DefaultRule r).

(** The precondition of the diff: the desired snapshot is there with a
    default action to write to, or the diff does not get to its assignment
    (nil options, or no default rule). *)
Definition diff_precondition {C : Collaborators} (rOpts : ptr ReconcileOptions)
  (w : World) : Prop :=
  rOpts = None \/
  rs_DefaultRule (rules (self w)) = None \/
  exists d, desired (ls_ (self w)) = Some d /\ (0 < len (elbv2.DefaultActions d))%nat.

(** The invariant [NewDesiredListener] gives every desired snapshot: exactly
    one default action, and it is not nil. *)
Definition one_default_action (d : elbv2.Listener) : Prop :=
  exists a, elbv2.DefaultActions d = Some [Some a].

(** The contract of a control plane that accepts a creation: it answers
    with one snapshot that echoes the request and carries the ARN it
    assigned. *)
Definition echoes_create (svc : ELBV2) : Prop :=
  forall input, exists arn,
    arn <> "" /\
    CreateListener svc input =
    (Some (elbv2.mkListenerOutput (Some [Some
       (elbv2.mkListener (elbv2.create_Certificates input)
          (elbv2.create_DefaultActions input)
          (Some arn)
          (elbv2.create_LoadBalancerArn input)
          (elbv2.create_Port input) (elbv2.create_Protocol input)
          (elbv2.create_SslPolicy input))])), None).

(** The receiver after a successful [delete]. *)
Definition marked_deleted {C : Collaborators} (l : Listener) : Listener :=
  mkListenerT (ls_ l) (rules l) true.

(** The upgrade condition of [NewDesiredListener]. *)
Definition upgrades (o : NewDesiredListenerOptions) : bool :=
  present (o_CertificateArn o) && String.eqb (Scheme (o_Port o)) "HTTPS".

(** The contract of a control plane that accepts a modification: it
    answers with one snapshot that echoes the request under the ARN the
    request names. *)
Definition echoes_modify (svc : ELBV2) : Prop :=
  forall input, exists lb,
    ModifyListener svc input =
    (Some (elbv2.mkListenerOutput (Some [Some
       (elbv2.mkListener (elbv2.modify_Certificates input)
          (elbv2.modify_DefaultActions input)
          (elbv2.modify_ListenerArn input)
          lb
          (elbv2.modify_Port input) (elbv2.modify_Protocol input)
          (elbv2.modify_SslPolicy input))])), None).

(** Two default-action slices that differ at most in the target group of
    the action at index 0. *)
Definition retargeted (das das' : slice (ptr elbv2.Action)) : Prop :=
  das' = das \/
  exists a rest tg,
    das = Some (Some a :: rest) /\
    das' = Some (Some (elbv2.mkAction (elbv2.Type_ a) tg) :: rest).

(** Two snapshots that differ at most in what the methods write to a
    desired snapshot: the load balancer ARN and the target group of the
    default action at index 0. *)
Definition same_but_writes (d d' : elbv2.Listener) : Prop :=
  elbv2.Port d' = elbv2.Port d /\
  elbv2.Protocol d' = elbv2.Protocol d /\
  elbv2.Certificates d' = elbv2.Certificates d /\
  elbv2.SslPolicy d' = elbv2.SslPolicy d /\
  elbv2.ListenerArn d' = elbv2.ListenerArn d /\
  retargeted (elbv2.DefaultActions d) (elbv2.DefaultActions d').

(** The event [Reconcile] emits after the request [c] went through, [port]
    being [*l.ls.current.Port]. *)
Definition success_event (c : ApiCall) (port : Z) : Event :=
  match c with
  | CallCreateListener _ =>
      mkEvent EventTypeNormal "CREATE" "%v listener created" [ArgInt port]
  | CallModifyListener _ =>
      mkEvent EventTypeNormal "MODIFY" "%v listener modified" [ArgInt port]
  | CallRemoveListener _ =>
      mkEvent EventTypeNormal "DELETE" "%v listener deleted" [ArgInt port]
  end.

(** The warning a method emits when the request [c] is refused with [err],
    [port] being the port it prints. *)
Definition failure_event (c : ApiCall) (port : Z) (err : error) : Event :=
  match c with
  | CallCreateListener _ =>
      mkEvent EventTypeWarning "ERROR" "Error creating %v listener: %s"
              [ArgInt port; ArgString err]
  | CallModifyListener _ =>
      mkEvent EventTypeWarning "ERROR" "Error modifying %v listener: %s"
              [ArgInt port; ArgString err]
  | CallRemoveListener _ =>
      mkEvent EventTypeWarning "ERROR" "Error deleting %v listener: %s"
              [ArgInt port; ArgString err]
  end.

(** The receiver with other rules, as the owner of a listener attaches
    them. *)
Definition with_rules {C : Collaborators} (r : rs_Rules) (l : Listener) : Listener :=
  mkListenerT (ls_ l) r (deleted l).

(** The target group the resolution writes for the rules [r]: the one the
    default rule gives, the one already there ([tg]) without a default
    rule. *)
Definition target_of {C : Collaborators} (r : rs_Rules) (tgs : tg_TargetGroups)
  (tg : ptr string) : ptr string :=
  match rs_DefaultRule r with
  | Some defaultRule => rs_TargetGroupArn defaultRule tgs
  | None => tg
  end.

(** ** Deep equality decides equality *)

Class DeepEqOk (A : Type) {D : DeepEq A} : Prop :=
  DeepEqual_iff : forall x y : A, DeepEqual x y = true <-> x = y.

#[export] Instance DeepEqOk_int64 : DeepEqOk Z.
Proof. exact Z.eqb_eq. Qed.

#[export] Instance DeepEqOk_string : DeepEqOk string.
Proof. exact String.eqb_eq. Qed.

#[export] Instance DeepEqOk_ptr {A : Type} `{DeepEqOk A} : DeepEqOk (ptr A).
Proof.
  intros [x|] [y|]; simpl; try (split; congruence).
  rewrite DeepEqual_iff. split; congruence.
Qed.

#[export] Instance DeepEqOk_elems {A : Type} `{DeepEqOk A} : DeepEqOk (list A).
Proof.
  intros xs. induction xs as [|x xs IH]; intros [|y ys]; simpl;
    try (split; congruence).
  change (DeepEqual x y && DeepEqual xs ys = true <-> x :: xs = y :: ys).
  rewrite andb_true_iff, DeepEqual_iff, IH. split.
  - intros [-> ->]. reflexivity.
  - intros E. injection E as -> ->. split; reflexivity.
Qed.

#[export] Instance DeepEqOk_Certificate : DeepEqOk elbv2.Certificate.
Proof.
  intros [x] [y].
  change (DeepEqual x y = true <-> elbv2.mkCertificate x = elbv2.mkCertificate y).
  rewrite DeepEqual_iff. split; congruence.
Qed.

#[export] Instance DeepEqOk_Action : DeepEqOk elbv2.Action.
Proof.
  intros [t1 g1] [t2 g2].
  change (DeepEqual t1 t2 && DeepEqual g1 g2 = true
          <-> elbv2.mkAction t1 g1 = elbv2.mkAction t2 g2).
  rewrite andb_true_iff, !DeepEqual_iff. split.
  - intros [-> ->]. reflexivity.
  - intros E. injection E as -> ->. split; reflexivity.
Qed.

Lemma DeepEqual_false_iff {A : Type} `{DeepEqOk A} (x y : A) :
  DeepEqual x y = false <-> x <> y.
Proof.
  rewrite <- DeepEqual_iff. destruct (DeepEqual x y); split; congruence.
Qed.

Lemma same_fieldsb_iff (c d : elbv2.Listener) :
  same_fieldsb c d = true <-> same_fields c d.
Proof.
  unfold same_fieldsb, same_fields.
  rewrite !andb_true_iff, !DeepEqual_iff. tauto.
Qed.

Lemma elbv2_Action_eta (a : elbv2.Action) :
  elbv2.mkAction (elbv2.Type_ a) (elbv2.TargetGroupArn a) = a.
Proof. destruct a; reflexivity. Qed.


(** ** The methods, run *)

Section Properties.

Context {C : Collaborators}.

Lemma with_desired_same (w : World) :
  with_desired (desired (ls_ (self w))) w = w.
Proof. destruct w as [[[c d] r del] cs ev]. reflexivity. Qed.

Lemma with_desired_eq (w : World) (d : ptr elbv2.Listener) :
  desired (ls_ (self w)) = d -> with_desired d w = w.
Proof. intros <-. apply with_desired_same. Qed.

(** [needsModification] in one step: the resolution, then the diff. *)
Lemma needsModification_run (rOpts : ptr ReconcileOptions) (w : World) :
  needsModification rOpts w =
  match desired (ls_ (self w)) with
  | Some d =>
      match resolved_if rOpts (rules (self w)) d with
      | Some d' =>
          match current (ls_ (self w)) with
          | Some c => Ok (negb (same_fieldsb c d')) (with_desired (Some d') w)
          | None => Ok true (with_desired (Some d') w)
          end
      | None => Panic w
      end
  | None =>
      if resolves rOpts (rules (self w)) then Panic w
      else match current (ls_ (self w)) with
           | Some _ => Panic w
           | None => Ok false w
           end
  end.
Proof.
  destruct w as [[[c d] r del] cs ev].
  unfold needsModification, resolved_if, resolved, resolves, same_fieldsb,
    bind, get_self, assign_desired, ret, panic, with_desired.
  destruct rOpts as [o|]; simpl.
  - destruct (rs_DefaultRule r) as [dr|]; simpl.
    + destruct d as [d|]; simpl; [|reflexivity].
      destruct (elbv2.assign_TargetGroupArn0 _ d) as [d'|]; simpl; [|reflexivity].
      destruct c as [c|]; simpl; [|reflexivity].
      repeat match goal with
             | |- context [if negb ?b then _ else _] => destruct b; simpl
             end; reflexivity.
    + destruct d as [d|], c as [c|]; simpl; try reflexivity.
      repeat match goal with
             | |- context [if negb ?b then _ else _] => destruct b; simpl
             end; reflexivity.
  - destruct d as [d|], c as [c|]; simpl; try reflexivity.
    repeat match goal with
           | |- context [if negb ?b then _ else _] => destruct b; simpl
           end; reflexivity.
Qed.

Ltac unfold_go :=
  unfold create, modify, delete, Eventf, emit, log_completed, current_Port,
    bind, ret, panic, deref, get_self, set_current, set_deleted, put_self,
    assign_desired, call_CreateListener, call_ModifyListener,
    call_RemoveListener in *.

Ltac break_match :=
  match goal with
  | |- context [match ?x with _ => _ end] =>
      lazymatch x with
      | context [match _ with _ => _ end] => fail
      | _ => destruct x eqn:?; simpl in *
      end
  end.

Ltac one_call :=
  repeat split; simpl; try lia; try congruence; try tauto;
  try (intros ? [<-|[]]; reflexivity);
  try (intros; discriminate).

Ltac some_calls :=
  eexists; split; [first [reflexivity | symmetry; apply app_nil_r] | one_call].

(** The bound on the requests of a run: at most one, and of the decision
    of the priority table. *)
Lemma Reconcile_at_most_one_request (rOpts : ptr ReconcileOptions) (w : World) :
  exists cs : list ApiCall,
    calls (world_of (Reconcile rOpts w)) = (calls w ++ cs)%list /\
    (List.length cs <= 1)%nat /\
    (forall c, In c cs -> decision_of_call c = decision rOpts w) /\
    (panicked (Reconcile rOpts w) = false -> decision rOpts w <> NoOp -> cs <> []) /\
    (panicked (Reconcile rOpts w) = false -> decision rOpts w = NoOp ->
     Reconcile rOpts w = Ok None (world_of (Reconcile rOpts w))) /\
    (current (ls_ (self w)) = None -> desired (ls_ (self w)) = None ->
     Reconcile rOpts w = Ok None w).
Proof.
  unfold decision, differs. rewrite needsModification_run.
  destruct w as [[[c d] r del] cs0 ev].
  unfold Reconcile, bind, get_self. simpl.
  destruct d as [d|], c as [c|]; simpl.
  - rewrite needsModification_run. simpl.
    destruct (resolved_if rOpts r d) as [d'|]; simpl.
    + destruct (same_fieldsb c d'); simpl.
      * exists []. rewrite app_nil_r. one_call.
      * unfold_go. simpl.
        exists [CallModifyListener
                  (elbv2.mkModifyListenerInput (elbv2.ListenerArn c)
                     (elbv2.Certificates d') (elbv2.Port d') (elbv2.Protocol d')
                     (elbv2.SslPolicy d') (elbv2.DefaultActions d'))].
        repeat break_match; simpl; one_call.
    + exists []. rewrite app_nil_r. one_call.
  - unfold_go. simpl. repeat break_match; simpl; some_calls.
  - unfold_go. simpl. repeat break_match; simpl; some_calls.
  - exists []. rewrite app_nil_r. one_call.
Qed.

(** The request of a run, decision by decision: what is sent, and when. *)
Lemma Reconcile_request (rOpts : ptr ReconcileOptions) (w : World) :
  match decision rOpts w with
  | NoOp =>
      calls (world_of (Reconcile rOpts w)) = calls w /\
      (if present (current (ls_ (self w)))
          && panicked (needsModification rOpts w)
       then Reconcile rOpts w = Panic w
       else Reconcile rOpts w = Ok None (world_of (Reconcile rOpts w)))
  | Delete =>
      exists c,
        current (ls_ (self w)) = Some c /\
        calls (world_of (Reconcile rOpts w)) =
        (calls w ++ [CallRemoveListener (elbv2.ListenerArn c)])%list
  | Create =>
      ((rOpts <> None /\
        exists d a, desired (ls_ (self w)) = Some d /\
                    index0 (elbv2.DefaultActions d) = Some (Some a)) ->
       exists input,
         calls (world_of (Reconcile rOpts w)) =
         (calls w ++ [CallCreateListener input])%list) /\
      (~ (rOpts <> None /\
          exists d a, desired (ls_ (self w)) = Some d /\
                      index0 (elbv2.DefaultActions d) = Some (Some a)) ->
       panicked (Reconcile rOpts w) = true /\
       calls (world_of (Reconcile rOpts w)) = calls w)
  | Modify =>
      exists c d',
        current (ls_ (self w)) = Some c /\
        desired (ls_ (self (world_of (needsModification rOpts w)))) = Some d' /\
        calls (world_of (Reconcile rOpts w)) =
        (calls w ++ [CallModifyListener
                       (elbv2.mkModifyListenerInput (elbv2.ListenerArn c)
                          (elbv2.Certificates d') (elbv2.Port d')
                          (elbv2.Protocol d') (elbv2.SslPolicy d')
                          (elbv2.DefaultActions d'))])%list
  end.
Proof.
  unfold decision, differs. rewrite needsModification_run.
  destruct w as [[[c d] r del] cs0 ev].
  unfold Reconcile, bind, get_self. simpl.
  destruct d as [d|], c as [c|]; simpl.
  - rewrite needsModification_run. simpl.
    destruct (resolved_if rOpts r d) as [d'|]; simpl.
    + destruct (same_fieldsb c d'); simpl.
      * split; reflexivity.
      * exists c, d'. split; [reflexivity|]. split; [reflexivity|].
        unfold_go. simpl. repeat break_match; simpl; reflexivity.
    + split; reflexivity.
  - destruct rOpts as [o|].
    + destruct d as [certs das larn lbarn port proto ssl].
      destruct das as [[|[a|] rest]|];
        unfold elbv2.assign_TargetGroupArn0; unfold_go; simpl.
      * split.
        -- intros (_ & d & a & E & Ha). injection E as <-. discriminate.
        -- intros _. destruct (rs_DefaultRule r); split; reflexivity.
      * split.
        -- intros _. destruct (rs_DefaultRule r); simpl;
             repeat break_match; simpl; eexists; reflexivity.
        -- intros H. exfalso. apply H. split; [discriminate|].
           eexists; eexists. split; reflexivity.
      * split.
        -- intros (_ & d & a & E & Ha). injection E as <-. discriminate.
        -- intros _. destruct (rs_DefaultRule r); split; reflexivity.
      * split.
        -- intros (_ & d & a & E & Ha). injection E as <-. discriminate.
        -- intros _. destruct (rs_DefaultRule r); split; reflexivity.
    + split.
      * intros (H & _). exfalso. apply H. reflexivity.
      * intros _. split; reflexivity.
  - exists c. split; [reflexivity|].
    unfold_go. simpl. repeat break_match; simpl; reflexivity.
  - split; reflexivity.
Qed.

(** C1. For every pair of snapshots [Reconcile] takes exactly the decision
    of the priority table (desired absent first, then current absent, then
    the diff, then nothing) and sends at most one request to the control
    plane, the one of that decision.  Under delete it sends the one
    [RemoveListener] at the ARN of current; under modify the one
    [ModifyListener] at the ARN of current with the fields of desired;
    under create the one [CreateListener], provided the options are not nil
    and the desired snapshot has a default action at index 0 (it panics
    before any request otherwise); under no-op it sends nothing and returns
    nil (it panics only where both snapshots are present and the diff
    panics).  With both snapshots absent nothing is sent, nothing changes
    and nil is returned. *)
Theorem Reconcile_selects_one (rOpts : ptr ReconcileOptions) (w : World) :
  (exists cs : list ApiCall,
     calls (world_of (Reconcile rOpts w)) = (calls w ++ cs)%list /\
     (List.length cs <= 1)%nat /\
     (forall c, In c cs -> decision_of_call c = decision rOpts w) /\
     (panicked (Reconcile rOpts w) = false -> decision rOpts w <> NoOp -> cs <> []) /\
     (panicked (Reconcile rOpts w) = false -> decision rOpts w = NoOp ->
      Reconcile rOpts w = Ok None (world_of (Reconcile rOpts w))) /\
     (current (ls_ (self w)) = None -> desired (ls_ (self w)) = None ->
      Reconcile rOpts w = Ok None w)) /\
  match decision rOpts w with
  | NoOp =>
      calls (world_of (Reconcile rOpts w)) = calls w /\
      (if present (current (ls_ (self w)))
          && panicked (needsModification rOpts w)
       then Reconcile rOpts w = Panic w
       else Reconcile rOpts w = Ok None (world_of (Reconcile rOpts w)))
  | Delete =>
      exists c,
        current (ls_ (self w)) = Some c /\
        calls (world_of (Reconcile rOpts w)) =
        (calls w ++ [CallRemoveListener (elbv2.ListenerArn c)])%list
  | Create =>
      ((rOpts <> None /\
        exists d a, desired (ls_ (self w)) = Some d /\
                    index0 (elbv2.DefaultActions d) = Some (Some a)) ->
       exists input,
         calls (world_of (Reconcile rOpts w)) =
         (calls w ++ [CallCreateListener input])%list) /\
      (~ (rOpts <> None /\
          exists d a, desired (ls_ (self w)) = Some d /\
                      index0 (elbv2.DefaultActions d) = Some (Some a)) ->
       panicked (Reconcile rOpts w) = true /\
       calls (world_of (Reconcile rOpts w)) = calls w)
  | Modify =>
      exists c d',
        current (ls_ (self w)) = Some c /\
        desired (ls_ (self (world_of (needsModification rOpts w)))) = Some d' /\
        calls (world_of (Reconcile rOpts w)) =
        (calls w ++ [CallModifyListener
                       (elbv2.mkModifyListenerInput (elbv2.ListenerArn c)
                          (elbv2.Certificates d') (elbv2.Port d')
                          (elbv2.Protocol d') (elbv2.SslPolicy d')
                          (elbv2.DefaultActions d'))])%list
  end.
Proof.
  split.
  - exact (Reconcile_at_most_one_request rOpts w).
  - exact (Reconcile_request rOpts w).
Qed.

(** C3. With both snapshots present (and the resolution of the target group
    well-defined), [needsModification] returns false if and only if port,
    protocol, certificates, default actions and SSL policy of the current
    snapshot are equal to those of the desired snapshot as the resolution
    left it; in particular a differing SSL policy makes it return true; with
    the current snapshot absent it returns true.  Where the resolution does
    not run (nil options, or no default rule) the desired snapshot is the
    one of the call. *)
Theorem needsModification_diff (rOpts : ptr ReconcileOptions) (w : World)
  (d d' : elbv2.Listener) :
  desired (ls_ (self w)) = Some d ->
  resolved_if rOpts (rules (self w)) d = Some d' ->
  (forall c, current (ls_ (self w)) = Some c ->
     exists b, needsModification rOpts w = Ok b (with_desired (Some d') w) /\
               (b = false <-> same_fields c d') /\
               (elbv2.SslPolicy c <> elbv2.SslPolicy d' -> b = true)) /\
  (current (ls_ (self w)) = None ->
     needsModification rOpts w = Ok true (with_desired (Some d') w)) /\
  (resolves rOpts (rules (self w)) = false -> d' = d).
Proof.
  intros Hd Hr. rewrite needsModification_run, Hd, Hr. repeat split.
  - intros c ->. exists (negb (same_fieldsb c d')). split; [reflexivity|].
    rewrite negb_false_iff, same_fieldsb_iff. split; [tauto|].
    intros Hs. destruct (same_fieldsb c d') eqn:E; [|reflexivity].
    apply same_fieldsb_iff in E. unfold same_fields in E. tauto.
  - intros ->. reflexivity.
  - unfold resolves, resolved_if, resolved in *.
    destruct rOpts as [o|]; simpl in *; [|congruence].
    destruct (rs_DefaultRule (rules (self w))); simpl in *; congruence.
Qed.

(** The default actions [create] leaves on the desired snapshot are the
    ones the resolution leaves, whatever the outcome of the request. *)
Lemma create_DefaultActions (o : ReconcileOptions) (w : World) (d : elbv2.Listener) :
  desired (ls_ (self w)) = Some d ->
  option_map elbv2.DefaultActions
    (desired (ls_ (self (world_of (create (Some o) w))))) =
  Some (match resolved (rules (self w)) (TargetGroups o) d with
        | Some d' => elbv2.DefaultActions d'
        | None => elbv2.DefaultActions d
        end).
Proof.
  destruct w as [[[c d0] r del] cs ev]. simpl. intros ->.
  destruct d as [certs [[|[a|] rest]|] larn lbarn port proto ssl];
    unfold resolved, elbv2.assign_TargetGroupArn0; unfold_go; simpl;
    repeat break_match; simpl; congruence.
Qed.

(** C8. With both snapshots present, [needsModification] first writes to the
    desired default action the target-group ARN that the default rule of the
    rules collection gives for the lookup table of the options, the very
    write of [create] (the default actions the two leave on the desired
    snapshot are the same), and only then compares: when the five fields
    agree and the rule now gives another target group, it returns true. *)
Theorem needsModification_resolves_as_create (o : ReconcileOptions) (w : World)
  (c d : elbv2.Listener) (r : rs_Rule) (a : elbv2.Action)
  (rest : list (ptr elbv2.Action)) :
  current (ls_ (self w)) = Some c ->
  desired (ls_ (self w)) = Some d ->
  rs_DefaultRule (rules (self w)) = Some r ->
  elbv2.DefaultActions d = Some (Some a :: rest) ->
  let arn := rs_TargetGroupArn r (TargetGroups o) in
  let d' := elbv2.set_DefaultActions
              (Some (Some (elbv2.mkAction (elbv2.Type_ a) arn) :: rest)) d in
  (exists b, needsModification (Some o) w = Ok b (with_desired (Some d') w) /\
             (b = false <-> same_fields c d')) /\
  option_map elbv2.DefaultActions
    (desired (ls_ (self (world_of (create (Some o) w))))) =
  option_map elbv2.DefaultActions
    (desired (ls_ (self (world_of (needsModification (Some o) w))))) /\
  (same_fields c d -> arn <> elbv2.TargetGroupArn a ->
   needsModification (Some o) w = Ok true (with_desired (Some d') w)).
Proof.
  intros Hc Hd Hr Ha arn d'.
  assert (Hres : resolved (rules (self w)) (TargetGroups o) d = Some d').
  { unfold resolved, elbv2.assign_TargetGroupArn0. rewrite Hr, Ha. reflexivity. }
  assert (Hrun : needsModification (Some o) w =
                 Ok (negb (same_fieldsb c d')) (with_desired (Some d') w)).
  { rewrite needsModification_run, Hd. simpl. rewrite Hres, Hc. reflexivity. }
  repeat split.
  - exists (negb (same_fieldsb c d')). split; [exact Hrun|].
    rewrite negb_false_iff. apply same_fieldsb_iff.
  - rewrite (create_DefaultActions o w d Hd), Hres, Hrun. reflexivity.
  - intros Hs Hne. rewrite Hrun. f_equal.
    destruct (same_fieldsb c d') eqn:E; [|reflexivity].
    apply same_fieldsb_iff in E. exfalso.
    destruct Hs as (_ & _ & _ & Hs & _), E as (_ & _ & _ & E & _).
    rewrite Hs, Ha in E. unfold d' in E. simpl in E.
    injection E as E. apply Hne. destruct a; simpl in *. congruence.
Qed.

(** The resolution of the two methods is the same statement on every state:
    the default actions they leave on the desired snapshot agree, and one
    panics in it exactly when the other does. *)
Lemma resolution_agrees (o : ReconcileOptions) (w : World) :
  option_map elbv2.DefaultActions
    (desired (ls_ (self (world_of (create (Some o) w))))) =
  option_map elbv2.DefaultActions
    (desired (ls_ (self (world_of (needsModification (Some o) w))))).
Proof.
  destruct (desired (ls_ (self w))) as [d|] eqn:Hd.
  - rewrite (create_DefaultActions o w d Hd), needsModification_run, Hd. simpl.
    destruct (resolved (rules (self w)) (TargetGroups o) d) as [d'|].
    + destruct (current (ls_ (self w))); reflexivity.
    + simpl. rewrite Hd. reflexivity.
  - rewrite needsModification_run, Hd.
    destruct w as [[[c d0] r del] cs ev]. simpl in *. subst d0.
    unfold_go. simpl.
    destruct (resolves (Some o) r); simpl; [reflexivity|].
    destruct c; reflexivity.
Qed.

(** C9. [needsModification] writes: with options that are not nil and a
    default rule, it stores the ARN the rule resolves to in
    [desired.DefaultActions[0].TargetGroupArn]; when that ARN is not the one
    stored before, the listener differs after the call, also when the call
    returns false, and then [Reconcile] returns nil without a request and
    leaves that changed listener behind. *)
Theorem needsModification_writes_desired (o : ReconcileOptions) (w : World)
  (d : elbv2.Listener) (r : rs_Rule) (a : elbv2.Action)
  (rest : list (ptr elbv2.Action)) :
  desired (ls_ (self w)) = Some d ->
  rs_DefaultRule (rules (self w)) = Some r ->
  elbv2.DefaultActions d = Some (Some a :: rest) ->
  let arn := rs_TargetGroupArn r (TargetGroups o) in
  let d' := elbv2.set_DefaultActions
              (Some (Some (elbv2.mkAction (elbv2.Type_ a) arn) :: rest)) d in
  (exists b, needsModification (Some o) w = Ok b (with_desired (Some d') w)) /\
  (arn <> elbv2.TargetGroupArn a -> self (with_desired (Some d') w) <> self w) /\
  (forall c, current (ls_ (self w)) = Some c -> same_fields c d' ->
     needsModification (Some o) w = Ok false (with_desired (Some d') w) /\
     Reconcile (Some o) w = Ok None (with_desired (Some d') w)).
Proof.
  intros Hd Hr Ha arn d'.
  assert (Hres : resolved (rules (self w)) (TargetGroups o) d = Some d').
  { unfold resolved, elbv2.assign_TargetGroupArn0. rewrite Hr, Ha. reflexivity. }
  split; [|split].
  - rewrite needsModification_run, Hd. simpl. rewrite Hres.
    destruct (current (ls_ (self w))); eexists; reflexivity.
  - intros Hne E. apply Hne.
    destruct w as [[[c0 d0] r0 del] cs ev]. simpl in *. subst d0.
    injection E as E. rewrite <- E in Ha. unfold d' in Ha. simpl in Ha.
    injection Ha as Ha. destruct a; simpl in *. congruence.
  - intros c Hc Hsame.
    assert (Hrun : needsModification (Some o) w = Ok false (with_desired (Some d') w)).
    { rewrite needsModification_run, Hd. simpl. rewrite Hres, Hc.
      apply same_fieldsb_iff in Hsame. rewrite Hsame. reflexivity. }
    split; [exact Hrun|].
    unfold Reconcile, bind, get_self. rewrite Hd, Hc, Hrun. reflexivity.
Qed.

(** C10, as amended.  [needsModification] writes through
    [desired.DefaultActions[0]] before its nil checks: a call that does not
    panic satisfies the precondition (desired present with a default action,
    or nil options, or no default rule), and with desired absent, options
    and a default rule it panics instead of reaching them.  [Reconcile]
    dispatches the desired-absent case before the diff (it goes on to the
    removal), so at the diff the desired snapshot is present; that it has a
    default action is not checked by [Reconcile]: it holds for the snapshots
    [NewDesiredListener] builds, which carry exactly one, and then the diff
    is well-defined and keeps it so. *)
Theorem needsModification_precondition (rOpts : ptr ReconcileOptions) (w : World) :
  (panicked (needsModification rOpts w) = false -> diff_precondition rOpts w) /\
  (desired (ls_ (self w)) = None -> resolves rOpts (rules (self w)) = true ->
   needsModification rOpts w = Panic w) /\
  (forall c, desired (ls_ (self w)) = None -> current (ls_ (self w)) = Some c ->
   calls (world_of (Reconcile rOpts w)) =
   (calls w ++ [CallRemoveListener (elbv2.ListenerArn c)])%list) /\
  (forall d, desired (ls_ (self w)) = Some d -> one_default_action d ->
   diff_precondition rOpts w /\
   exists b d', needsModification rOpts w = Ok b (with_desired (Some d') w) /\
                one_default_action d') /\
  (forall o, exists d, desired (ls_ (NewDesiredListener o)) = Some d /\
                       one_default_action d).
Proof.
  split; [|split; [|split; [|split]]].
  - rewrite needsModification_run. unfold diff_precondition.
    destruct rOpts as [o|]; [|tauto].
    destruct (rs_DefaultRule (rules (self w))) as [r|] eqn:Hr; [|tauto].
    destruct (desired (ls_ (self w))) as [d|] eqn:Hd.
    + unfold resolved_if, resolved, elbv2.assign_TargetGroupArn0. rewrite Hr.
      destruct (elbv2.DefaultActions d) as [[|[a|] rest]|] eqn:Ha;
        simpl; try discriminate.
      intros _. right. right. exists d. rewrite Ha. simpl. split; [reflexivity|lia].
    + unfold resolves. rewrite Hr. simpl. discriminate.
  - intros Hd Hr. rewrite needsModification_run, Hd, Hr. reflexivity.
  - intros c Hd Hc. destruct w as [[[c0 d0] r del] cs ev]. simpl in *. subst.
    unfold Reconcile. unfold_go. simpl.
    repeat break_match; simpl; reflexivity.
  - intros d Hd [a Ha]. split.
    + right. right. exists d. rewrite Ha. simpl. split; [assumption|lia].
    + rewrite needsModification_run, Hd.
      unfold resolved_if, resolved, elbv2.assign_TargetGroupArn0. rewrite Ha.
      destruct rOpts as [o|]; [destruct (rs_DefaultRule (rules (self w)))|];
        destruct (current (ls_ (self w)));
        eexists; eexists; (split; [reflexivity|]);
        eexists; simpl; first [reflexivity | exact Ha].
  - intros o. eexists. split; [reflexivity|]. unfold one_default_action.
    destruct o as [[p sch] [cert|] [ssl|]]; simpl;
      destruct (String.eqb sch "HTTPS"); simpl; eexists; reflexivity.
Qed.

(** C5, as amended.  [NewDesiredListener] builds a desired snapshot (and no
    current one) on the port of the descriptor, with protocol HTTP unless a
    certificate is supplied and the scheme is HTTPS, in which case the
    protocol is HTTPS and the certificate is attached; the SSL policy is
    attached whenever one is supplied and the scheme is HTTPS, whether or
    not a certificate is; the default action is one forward action with no
    target group. *)
Theorem NewDesiredListener_snapshot (o : NewDesiredListenerOptions) :
  exists d,
    ls_ (NewDesiredListener o) = mk_ls None (Some d) /\
    (upgrades o = true <->
     o_CertificateArn o <> None /\ Scheme (o_Port o) = "HTTPS") /\
    elbv2.Port d = Some (PortData_Port (o_Port o)) /\
    elbv2.Protocol d = Some (if upgrades o then "HTTPS" else "HTTP") /\
    elbv2.Certificates d =
      (if upgrades o
       then Some [Some (elbv2.mkCertificate (o_CertificateArn o))]
       else None) /\
    elbv2.SslPolicy d =
      (if String.eqb (Scheme (o_Port o)) "HTTPS" then o_SslPolicy o else None) /\
    elbv2.DefaultActions d = Some [Some (elbv2.mkAction (Some "forward") None)] /\
    elbv2.ListenerArn d = None /\
    elbv2.LoadBalancerArn d = None.
Proof.
  eexists. split; [reflexivity|]. split.
  - unfold upgrades. rewrite andb_true_iff, String.eqb_eq.
    destruct (o_CertificateArn o); simpl; split; intros [? ?]; split;
      congruence.
  - unfold upgrades.
    destruct o as [[p sch] [cert|] [ssl|]]; simpl;
      destruct (String.eqb sch "HTTPS"); simpl; repeat split.
Qed.

(** The first statement of [modify]: a nil current hands over to [create]. *)
Lemma modify_without_current (rOpts : ptr ReconcileOptions) (w : World) :
  current (ls_ (self w)) = None ->
  modify rOpts w = create rOpts w.
Proof.
  intros Hc. unfold modify at 1. unfold bind at 1, get_self at 1.
  rewrite Hc. reflexivity.
Qed.

(** C6. With the current snapshot absent and the desired one present,
    [modify] is [create]: the same state afterwards, the same request, the
    same events, the same returned error, the same panic. *)
Theorem modify_self_heals (rOpts : ptr ReconcileOptions) (w : World)
  (d : elbv2.Listener) :
  current (ls_ (self w)) = None ->
  desired (ls_ (self w)) = Some d ->
  modify rOpts w = create rOpts w.
Proof.
  intros Hc _. exact (modify_without_current rOpts w Hc).
Qed.

(** C7. With the current snapshot present, a [delete] the control plane
    accepts sends exactly one removal, addressed by the ARN of the current
    snapshot, sets [deleted] and changes nothing else of the listener
    (current stays); so does [Reconcile] when desired is absent.  With both
    snapshots absent [Reconcile] sends nothing and returns nil ([delete]
    itself is not called: it would panic before any request). *)
Theorem delete_only_current (rOpts : ptr ReconcileOptions) (w : World) :
  (forall c, current (ls_ (self w)) = Some c ->
     RemoveListener ELBV2svc (elbv2.ListenerArn c) = None ->
     delete rOpts w =
       Ok None (mkWorld (marked_deleted (self w))
                        (calls w ++ [CallRemoveListener (elbv2.ListenerArn c)])
                        (events w)) /\
     (desired (ls_ (self w)) = None ->
      self (world_of (Reconcile rOpts w)) = marked_deleted (self w) /\
      calls (world_of (Reconcile rOpts w)) =
        (calls w ++ [CallRemoveListener (elbv2.ListenerArn c)])%list)) /\
  (current (ls_ (self w)) = None -> desired (ls_ (self w)) = None ->
     Reconcile rOpts w = Ok None w) /\
  (current (ls_ (self w)) = None -> delete rOpts w = Panic w).
Proof.
  destruct w as [[[c0 d0] r del] cs ev]. simpl. split; [|split].
  - intros c -> Hok. split.
    + unfold_go. simpl. rewrite Hok. reflexivity.
    + intros ->. unfold Reconcile. unfold_go. simpl. rewrite Hok. simpl.
      split; repeat break_match; reflexivity.
  - intros -> ->. reflexivity.
  - intros ->. reflexivity.
Qed.

Lemma no_call {A : Type} (cs : list A) (c : A) : cs = (cs ++ [c])%list -> False.
Proof.
  intros E. apply (f_equal (@List.length A)) in E.
  rewrite length_app in E. simpl in E. lia.
Qed.

Ltac the_call H :=
  first [ exfalso; exact (no_call _ _ H)
        | apply app_inv_head in H; injection H as <- ].

(** A refused [create]: the request is the only one, the error is the one
    the control plane gave, current, rules and [deleted] are as before, and
    the desired snapshot carries the two writes made before the request.
    The error is returned when the port the warning prints is there. *)
Lemma create_failure (rOpts : ptr ReconcileOptions) (w : World) (c : ApiCall) (e : error) :
  answer ELBV2svc c = Some e ->
  calls (world_of (create rOpts w)) = (calls w ++ [c])%list ->
  current (ls_ (self (world_of (create rOpts w)))) = current (ls_ (self w)) /\
  rules (self (world_of (create rOpts w))) = rules (self w) /\
  deleted (self (world_of (create rOpts w))) = deleted (self w) /\
  (exists o d d',
     rOpts = Some o /\ desired (ls_ (self w)) = Some d /\
     resolved (rules (self w)) (TargetGroups o)
       (elbv2.set_LoadBalancerArn (LoadBalancerArn o) d) = Some d' /\
     desired (ls_ (self (world_of (create rOpts w)))) = Some d') /\
  (panicked (create rOpts w) = false ->
   create rOpts w = Ok (Some e) (world_of (create rOpts w))) /\
  (forall d, desired (ls_ (self w)) = Some d -> elbv2.Port d <> None ->
   create rOpts w = Ok (Some e) (world_of (create rOpts w))).
Proof.
  destruct w as [[[c0 d0] r del] cs ev]. intros He.
  destruct rOpts as [o|], d0 as [[certs das larn lbarn port proto ssl]|];
    unfold_go; simpl;
    try (intros Hcalls; exfalso; exact (no_call _ _ Hcalls)).
  unfold resolved, elbv2.assign_TargetGroupArn0.
  destruct das as [[|[a|] rest]|]; simpl;
    repeat break_match; simpl; intros Hcalls; the_call Hcalls; simpl in He;
    try congruence;
    (split; [reflexivity|]; split; [reflexivity|]; split; [reflexivity|];
     split; [eexists; eexists; eexists; repeat split; reflexivity|];
     split; [congruence || discriminate|];
     intros d Hd Hport; injection Hd as <-; simpl in Hport; congruence).
Qed.

(** A refused [modify] of a present current snapshot changes nothing of the
    listener, and returns the error when the options are there and the port
    the warning prints is. *)
Lemma modify_failure (rOpts : ptr ReconcileOptions) (w : World) (c : ApiCall) (e : error) :
  answer ELBV2svc c = Some e ->
  current (ls_ (self w)) <> None ->
  calls (world_of (modify rOpts w)) = (calls w ++ [c])%list ->
  self (world_of (modify rOpts w)) = self w /\
  (panicked (modify rOpts w) = false ->
   modify rOpts w = Ok (Some e) (world_of (modify rOpts w))) /\
  (forall d, desired (ls_ (self w)) = Some d -> elbv2.Port d <> None ->
   rOpts <> None ->
   modify rOpts w = Ok (Some e) (world_of (modify rOpts w))).
Proof.
  destruct w as [[[c0 d0] r del] cs ev]. intros He Hc.
  destruct c0 as [c0|]; [|exfalso; apply Hc; reflexivity].
  unfold_go; simpl.
  repeat break_match; simpl; intros Hcalls; the_call Hcalls; simpl in He;
    try congruence;
    (split; [reflexivity|]; split; [congruence || discriminate|];
     intros d Hd Hport Hopts; injection Hd as <-; congruence).
Qed.

(** A refused [delete] changes nothing of the listener, and returns the
    error when the options are there and the port and the ARN the warning
    and the log line print are. *)
Lemma delete_failure (rOpts : ptr ReconcileOptions) (w : World) (c : ApiCall) (e : error) :
  answer ELBV2svc c = Some e ->
  calls (world_of (delete rOpts w)) = (calls w ++ [c])%list ->
  self (world_of (delete rOpts w)) = self w /\
  (panicked (delete rOpts w) = false ->
   delete rOpts w = Ok (Some e) (world_of (delete rOpts w))) /\
  (forall c0, current (ls_ (self w)) = Some c0 ->
   elbv2.Port c0 <> None -> elbv2.ListenerArn c0 <> None -> rOpts <> None ->
   delete rOpts w = Ok (Some e) (world_of (delete rOpts w))).
Proof.
  destruct w as [[[c0 d0] r del] cs ev]. intros He.
  unfold_go; simpl.
  repeat break_match; simpl; intros Hcalls; the_call Hcalls; simpl in He;
    try congruence;
    (split; [reflexivity|]; split; [congruence || discriminate|];
     intros c1 Hc1 Hport Harn Hopts; injection Hc1 as <-; congruence).
Qed.

(** A refused request and a nil port (for [delete] also a nil ARN, for
    [modify] and [delete] also nil options): the method panics at the
    dereference in the warning or the log line, before it returns. *)
Lemma create_failure_panics (rOpts : ptr ReconcileOptions) (w : World)
  (c : ApiCall) (e : error) (d : elbv2.Listener) :
  answer ELBV2svc c = Some e ->
  calls (world_of (create rOpts w)) = (calls w ++ [c])%list ->
  desired (ls_ (self w)) = Some d ->
  elbv2.Port d = None ->
  panicked (create rOpts w) = true.
Proof.
  destruct w as [[[c0 d0] r del] cs ev]. simpl. intros He Hcalls -> Hport.
  revert Hcalls.
  destruct d as [certs das larn lbarn port proto ssl]. simpl in Hport. subst port.
  destruct rOpts as [o|]; unfold_go; simpl;
    try (intros Hcalls; exfalso; exact (no_call _ _ Hcalls)).
  unfold elbv2.assign_TargetGroupArn0.
  destruct das as [[|[a|] rest]|]; simpl;
    repeat break_match; simpl; intros Hcalls; the_call Hcalls; simpl in He;
    congruence.
Qed.

Lemma modify_failure_panics (rOpts : ptr ReconcileOptions) (w : World)
  (c : ApiCall) (e : error) :
  answer ELBV2svc c = Some e ->
  current (ls_ (self w)) <> None ->
  calls (world_of (modify rOpts w)) = (calls w ++ [c])%list ->
  (rOpts = None \/
   exists d, desired (ls_ (self w)) = Some d /\ elbv2.Port d = None) ->
  panicked (modify rOpts w) = true.
Proof.
  destruct w as [[[c0 d0] r del] cs ev]. simpl. intros He Hc.
  destruct c0 as [c0|]; [|exfalso; apply Hc; reflexivity].
  unfold_go; simpl.
  repeat break_match; simpl; intros Hcalls; the_call Hcalls; simpl in He;
    try congruence;
    intros [Ho|(d & Hd & Hp)]; try discriminate;
    injection Hd as <-; congruence.
Qed.

Lemma delete_failure_panics (rOpts : ptr ReconcileOptions) (w : World)
  (c : ApiCall) (e : error) :
  answer ELBV2svc c = Some e ->
  calls (world_of (delete rOpts w)) = (calls w ++ [c])%list ->
  (rOpts = None \/
   exists c0, current (ls_ (self w)) = Some c0 /\
              (elbv2.Port c0 = None \/ elbv2.ListenerArn c0 = None)) ->
  panicked (delete rOpts w) = true.
Proof.
  destruct w as [[[c0 d0] r del] cs ev]. simpl. intros He.
  unfold_go; simpl.
  repeat break_match; simpl; intros Hcalls; the_call Hcalls; simpl in He;
    try congruence;
    intros [Ho|(c1 & Hc1 & [Hp|Ha])]; try discriminate;
    injection Hc1 as <-; congruence.
Qed.

(** C2, as amended.  When the control plane refuses the request of
    [create], [modify] or [delete], current, rules and [deleted] are as
    before the call, and the method returns that very error exactly when
    the options are not nil and the port (for [delete] also the ARN) that
    the warning prints is there; with one of them nil it panics at that
    dereference instead of returning.  [delete], and [modify] of a present
    current snapshot, leave the whole listener unchanged; [create] (and
    [modify] when it turns into [create]) has by then written the load
    balancer ARN and the resolved target-group ARN into the desired
    snapshot, and they stay. *)
Theorem failure_keeps_current (rOpts : ptr ReconcileOptions) (w : World)
  (c : ApiCall) (e : error) :
  answer ELBV2svc c = Some e ->
  (calls (world_of (create rOpts w)) = (calls w ++ [c])%list ->
   let w' := world_of (create rOpts w) in
   current (ls_ (self w')) = current (ls_ (self w)) /\
   rules (self w') = rules (self w) /\
   deleted (self w') = deleted (self w) /\
   (exists o d d',
      rOpts = Some o /\ desired (ls_ (self w)) = Some d /\
      resolved (rules (self w)) (TargetGroups o)
        (elbv2.set_LoadBalancerArn (LoadBalancerArn o) d) = Some d' /\
      desired (ls_ (self w')) = Some d') /\
   (panicked (create rOpts w) = false -> create rOpts w = Ok (Some e) w') /\
   (forall d, desired (ls_ (self w)) = Some d -> elbv2.Port d <> None ->
    create rOpts w = Ok (Some e) w') /\
   (forall d, desired (ls_ (self w)) = Some d -> elbv2.Port d = None ->
    panicked (create rOpts w) = true)) /\
  (calls (world_of (modify rOpts w)) = (calls w ++ [c])%list ->
   let w' := world_of (modify rOpts w) in
   current (ls_ (self w')) = current (ls_ (self w)) /\
   rules (self w') = rules (self w) /\
   deleted (self w') = deleted (self w) /\
   (current (ls_ (self w)) <> None -> self w' = self w) /\
   (panicked (modify rOpts w) = false -> modify rOpts w = Ok (Some e) w') /\
   (forall d, desired (ls_ (self w)) = Some d -> elbv2.Port d <> None ->
    rOpts <> None -> modify rOpts w = Ok (Some e) w') /\
   (rOpts = None \/
    (exists d, desired (ls_ (self w)) = Some d /\ elbv2.Port d = None) ->
    panicked (modify rOpts w) = true)) /\
  (calls (world_of (delete rOpts w)) = (calls w ++ [c])%list ->
   let w' := world_of (delete rOpts w) in
   self w' = self w /\
   (panicked (delete rOpts w) = false -> delete rOpts w = Ok (Some e) w') /\
   (forall c0, current (ls_ (self w)) = Some c0 ->
    elbv2.Port c0 <> None -> elbv2.ListenerArn c0 <> None -> rOpts <> None ->
    delete rOpts w = Ok (Some e) w') /\
   (rOpts = None \/
    (exists c0, current (ls_ (self w)) = Some c0 /\
                (elbv2.Port c0 = None \/ elbv2.ListenerArn c0 = None)) ->
    panicked (delete rOpts w) = true)).
Proof.
  intros He. split; [|split].
  - intros Hcalls. simpl.
    pose proof (create_failure rOpts w c e He Hcalls)
      as (H1 & H2 & H3 & H4 & H5 & H6).
    repeat split; auto.
    intros d Hd Hport. exact (create_failure_panics rOpts w c e d He Hcalls Hd Hport).
  - intros Hcalls. simpl.
    destruct (current (ls_ (self w))) as [c0|] eqn:Hc.
    + assert (Hne : current (ls_ (self w)) <> None) by congruence.
      destruct (modify_failure rOpts w c e He Hne Hcalls) as (Hs & Hr & Hf).
      rewrite Hs, Hc. repeat split; auto.
      intros Hnil. exact (modify_failure_panics rOpts w c e He Hne Hcalls Hnil).
    + rewrite (modify_without_current rOpts w Hc) in *.
      pose proof (create_failure rOpts w c e He Hcalls)
        as (H1 & H2 & H3 & (o & d0 & d' & Ho & _) & H5 & H6).
      rewrite Hc in H1. repeat split; auto; try congruence.
      * intros d Hd Hport _. exact (H6 d Hd Hport).
      * intros [Hnil|(d & Hd & Hport)]; [congruence|].
        exact (create_failure_panics rOpts w c e d He Hcalls Hd Hport).
  - intros Hcalls. simpl.
    destruct (delete_failure rOpts w c e He Hcalls) as (H1 & H2 & H3).
    repeat split; auto.
    intros Hnil. exact (delete_failure_panics rOpts w c e He Hcalls Hnil).
Qed.



(** ** More of the listener: frames, convergence, observability *)

Lemma DeepEqual_refl {A : Type} `{DeepEqOk A} (x : A) : DeepEqual x x = true.
Proof. apply DeepEqual_iff. reflexivity. Qed.

Lemma same_fieldsb_refl (d : elbv2.Listener) : same_fieldsb d d = true.
Proof. apply same_fieldsb_iff. repeat split. Qed.

Lemma retargeted_refl (das : slice (ptr elbv2.Action)) : retargeted das das.
Proof. left. reflexivity. Qed.

(** The write of the resolution is idempotent. *)
Lemma assign_TargetGroupArn0_idem (v : ptr string) (d d' : elbv2.Listener) :
  elbv2.assign_TargetGroupArn0 v d = Some d' ->
  elbv2.assign_TargetGroupArn0 v d' = Some d'.
Proof.
  unfold elbv2.assign_TargetGroupArn0.
  destruct d as [certs [[|[a|] rest]|] larn lbarn port proto ssl]; simpl;
    try discriminate.
  intros E. injection E as <-. reflexivity.
Qed.

Lemma resolved_if_idem (rOpts : ptr ReconcileOptions) (r : rs_Rules)
  (d d' : elbv2.Listener) :
  resolved_if rOpts r d = Some d' -> resolved_if rOpts r d' = Some d'.
Proof.
  unfold resolved_if, resolved. destruct rOpts as [o|]; [|congruence].
  destruct (rs_DefaultRule r); [apply assign_TargetGroupArn0_idem | congruence].
Qed.

Lemma resolved_if_same_but_writes (rOpts : ptr ReconcileOptions) (r : rs_Rules)
  (d d' : elbv2.Listener) :
  resolved_if rOpts r d = Some d' ->
  same_but_writes d d' /\ elbv2.LoadBalancerArn d' = elbv2.LoadBalancerArn d.
Proof.
  unfold resolved_if, resolved, elbv2.assign_TargetGroupArn0, same_but_writes.
  destruct d as [certs das larn lbarn port proto ssl]. simpl.
  destruct rOpts as [o|];
    [destruct (rs_DefaultRule r); [destruct das as [[|[a|] rest]|]|]|];
    intros E; try discriminate; injection E as <-; simpl;
    repeat split; try apply retargeted_refl.
  right. eexists; eexists; eexists. split; reflexivity.
Qed.

(** X1. [needsModification] is idempotent: a second call on the world the
    first one left returns the same answer and changes nothing. *)
Theorem needsModification_idempotent (rOpts : ptr ReconcileOptions) (w w1 : World)
  (b : bool) :
  needsModification rOpts w = Ok b w1 ->
  needsModification rOpts w1 = Ok b w1.
Proof.
  rewrite !needsModification_run.
  destruct w as [[[c d] r del] cs ev]. simpl.
  destruct d as [d|].
  - destruct (resolved_if rOpts r d) as [d'|] eqn:Hres; [|discriminate].
    apply resolved_if_idem in Hres.
    destruct c as [c|]; intros E; injection E as <- <-; simpl;
      rewrite Hres; reflexivity.
  - destruct (resolves rOpts r) eqn:Hr; [discriminate|].
    destruct c as [c|]; [discriminate|].
    intros E. injection E as <- <-. simpl. rewrite Hr. reflexivity.
Qed.


(** X2. [needsModification] only writes the target group of the desired
    default action: it sends no request and emits no event, it leaves
    current, rules and [deleted], and of the desired snapshot it keeps
    everything but that one field; when it panics it has changed nothing. *)
Theorem needsModification_frame (rOpts : ptr ReconcileOptions) (w : World) :
  let w' := world_of (needsModification rOpts w) in
  calls w' = calls w /\
  events w' = events w /\
  current (ls_ (self w')) = current (ls_ (self w)) /\
  rules (self w') = rules (self w) /\
  deleted (self w') = deleted (self w) /\
  (panicked (needsModification rOpts w) = true -> w' = w) /\
  match desired (ls_ (self w)) with
  | Some d =>
      exists d', desired (ls_ (self w')) = Some d' /\
                 same_but_writes d d' /\
                 elbv2.LoadBalancerArn d' = elbv2.LoadBalancerArn d
  | None => desired (ls_ (self w')) = None
  end.
Proof.
  rewrite needsModification_run.
  destruct w as [[[c d] r del] cs ev]. simpl.
  destruct d as [d|].
  - destruct (resolved_if rOpts r d) as [d'|] eqn:Hres.
    + apply resolved_if_same_but_writes in Hres.
      destruct c as [c|]; simpl; repeat split; try discriminate;
        exists d'; (split; [reflexivity | exact Hres]).
    + simpl. repeat split. exists d. split; [reflexivity|].
      repeat split. apply retargeted_refl.
  - destruct (resolves rOpts r); [|destruct c as [c|]]; simpl; repeat split.
Qed.


Ltac writes_only :=
  unfold same_but_writes; simpl; repeat split;
  first [ apply retargeted_refl
        | right; eexists; eexists; eexists; split; reflexivity ].

Ltac frame_leaf :=
  simpl;
  split; [reflexivity|];
  split; [first [left; reflexivity
                | right; repeat split; congruence || discriminate]|];
  first [ split; reflexivity
        | eexists; split; [reflexivity | writes_only] ].

(** X3. What [Reconcile] never touches, whatever the outcome: the rules;
    [deleted], unless desired is absent and current present (the removal);
    the presence of the desired snapshot, and of a desired snapshot
    everything but the load balancer ARN and the target group of its
    default action at index 0; with desired absent, the current snapshot. *)
Theorem Reconcile_frame (rOpts : ptr ReconcileOptions) (w : World) :
  let w' := world_of (Reconcile rOpts w) in
  rules (self w') = rules (self w) /\
  (deleted (self w') = deleted (self w) \/
   deleted (self w') = true /\ desired (ls_ (self w)) = None /\
   current (ls_ (self w)) <> None) /\
  match desired (ls_ (self w)) with
  | Some d => exists d', desired (ls_ (self w')) = Some d' /\ same_but_writes d d'
  | None => desired (ls_ (self w')) = None /\
            current (ls_ (self w')) = current (ls_ (self w))
  end.
Proof.
  destruct w as [[[c d] r del] cs ev].
  destruct d as [[certs das larn lbarn port proto ssl]|], c as [c|];
    unfold Reconcile, bind, get_self; simpl.
  - rewrite needsModification_run.
    unfold resolved_if, resolved, elbv2.assign_TargetGroupArn0. simpl.
    destruct rOpts as [o|];
      [destruct (rs_DefaultRule r); [destruct das as [[|[a|] rest]|]|]|];
      simpl; try frame_leaf;
      match goal with
      | |- context [same_fieldsb ?x ?y] => destruct (same_fieldsb x y)
      end; simpl; try frame_leaf;
      unfold_go; simpl; repeat break_match; frame_leaf.
  - destruct das as [[|[a|] rest]|];
      unfold resolved, elbv2.assign_TargetGroupArn0; unfold_go; simpl;
      repeat break_match; frame_leaf.
  - unfold_go. simpl. repeat break_match; frame_leaf.
  - frame_leaf.
Qed.


Ltac run_Reconcile w :=
  destruct w as [[[?c ?d] ?r ?del] ?cs ?ev];
  unfold Reconcile, bind, get_self; simpl.

Ltac returned_error E :=
  injection E; intros; subst; simpl;
  eexists; (split; [reflexivity | simpl; assumption]).

Ltac run_diff :=
  rewrite needsModification_run; simpl.

(** X4. [Reconcile] neither invents nor swallows an error: an error it
    returns is the answer of the control plane to the one request of the
    run, and when it returns nil after a request, the control plane had
    accepted that request. *)
Theorem Reconcile_error_is_answer (rOpts : ptr ReconcileOptions) (w : World) :
  (forall e w', Reconcile rOpts w = Ok (Some e) w' ->
     exists c, calls w' = (calls w ++ [c])%list /\ answer ELBV2svc c = Some e) /\
  (forall w' c, Reconcile rOpts w = Ok None w' ->
     calls w' = (calls w ++ [c])%list -> answer ELBV2svc c = None).
Proof.
  run_Reconcile w.
  split.
  - intros e w'.
    destruct d as [d|], c as [c|]; simpl.
    + run_diff.
      destruct (resolved_if rOpts r d) as [d'|]; simpl; [|discriminate].
      destruct (same_fieldsb c d'); simpl; [discriminate|].
      unfold_go. simpl.
      repeat break_match; simpl; intros E; try discriminate;
        returned_error E.
    + unfold_go. simpl.
      repeat break_match; simpl; intros E; try discriminate;
        returned_error E.
    + unfold_go. simpl.
      repeat break_match; simpl; intros E; try discriminate;
        returned_error E.
    + discriminate.
  - intros w' c0.
    destruct d as [d|], c as [c|]; simpl.
    + run_diff.
      destruct (resolved_if rOpts r d) as [d'|]; simpl; [|discriminate].
      destruct (same_fieldsb c d'); simpl.
      * intros E Hcalls. injection E as <-. simpl in Hcalls.
        exfalso. exact (no_call _ _ Hcalls).
      * unfold_go. simpl.
        repeat break_match; simpl; intros E Hcalls; try discriminate;
          injection E as <-; simpl in Hcalls; the_call Hcalls; simpl;
          assumption.
    + unfold_go. simpl.
      repeat break_match; simpl; intros E Hcalls; try discriminate;
        injection E as <-; simpl in Hcalls; the_call Hcalls; simpl;
        assumption.
    + unfold_go. simpl.
      repeat break_match; simpl; intros E Hcalls; try discriminate;
        injection E as <-; simpl in Hcalls; the_call Hcalls; simpl;
        assumption.
    + intros E Hcalls. injection E as <-. simpl in Hcalls.
      exfalso. exact (no_call _ _ Hcalls).
Qed.


Ltac warned E :=
  injection E; intros; subst; simpl;
  eexists; eexists; (split; reflexivity).

Ltac reported E :=
  injection E; intros;
  repeat match goal with
         | H : Some _ = Some _ |- _ => injection H as H
         end;
  subst; simpl;
  first [ left; split; reflexivity
        | right; eexists; eexists; eexists;
          repeat split; first [reflexivity | eassumption] ].

(** X5. Every request of [Reconcile] is reported, once: a returned error
    comes with exactly one warning event, of reason "ERROR", that carries
    the text of the error; a nil return after a request comes with exactly
    one normal event, of the reason of the request (CREATE, MODIFY, DELETE),
    that carries the port of the current snapshot; a nil return without a
    request comes with no event. *)
Theorem Reconcile_events (rOpts : ptr ReconcileOptions) (w : World) :
  (forall e w', Reconcile rOpts w = Ok (Some e) w' ->
     exists c p,
       calls w' = (calls w ++ [c])%list /\
       events w' = (events w ++ [failure_event c p e])%list) /\
  (forall w', Reconcile rOpts w = Ok None w' ->
     (calls w' = calls w /\ events w' = events w) \/
     exists c cur p,
       calls w' = (calls w ++ [c])%list /\
       current (ls_ (self w')) = Some cur /\
       elbv2.Port cur = Some p /\
       events w' = (events w ++ [success_event c p])%list).
Proof.
  run_Reconcile w.
  split.
  - intros e w'.
    destruct d as [d|], c as [c|]; simpl.
    + run_diff.
      destruct (resolved_if rOpts r d) as [d'|]; simpl; [|discriminate].
      destruct (same_fieldsb c d'); simpl; [discriminate|].
      unfold_go. simpl.
      repeat break_match; simpl; intros E; try discriminate; warned E.
    + unfold_go. simpl.
      repeat break_match; simpl; intros E; try discriminate; warned E.
    + unfold_go. simpl.
      repeat break_match; simpl; intros E; try discriminate; warned E.
    + discriminate.
  - intros w'.
    destruct d as [d|], c as [c|]; simpl.
    + run_diff.
      destruct (resolved_if rOpts r d) as [d'|]; simpl; [|discriminate].
      destruct (same_fieldsb c d'); simpl.
      * intros E. reported E.
      * unfold_go. simpl.
        repeat break_match; simpl; intros E; try discriminate; reported E.
    + unfold_go. simpl.
      repeat break_match; simpl; intros E; try discriminate; reported E.
    + unfold_go. simpl.
      repeat break_match; simpl; intros E; try discriminate; reported E.
    + intros E. reported E.
Qed.


(** With both snapshots present and the five fields equal once the target
    group is resolved, [Reconcile] returns nil and only the resolution has
    written. *)
Lemma Reconcile_in_sync (rOpts : ptr ReconcileOptions) (w : World)
  (c d d' : elbv2.Listener) :
  current (ls_ (self w)) = Some c ->
  desired (ls_ (self w)) = Some d ->
  resolved_if rOpts (rules (self w)) d = Some d' ->
  same_fields c d' ->
  Reconcile rOpts w = Ok None (with_desired (Some d') w).
Proof.
  intros Hc Hd Hres Hsame.
  unfold Reconcile, bind, get_self. rewrite Hd, Hc.
  rewrite needsModification_run, Hd, Hres, Hc.
  apply same_fieldsb_iff in Hsame. rewrite Hsame. reflexivity.
Qed.

(** X6. Creation converges: when the control plane echoes a creation (and
    the desired snapshot has its one default action, a port and a
    protocol), [Reconcile] on a listener without current snapshot sends one
    [CreateListener] and returns nil, and a second [Reconcile] on the world
    it left returns nil without a request and changes nothing. *)
Theorem Reconcile_create_converges (o : ReconcileOptions) (w : World)
  (d : elbv2.Listener) (p : Z) (proto : string) :
  current (ls_ (self w)) = None ->
  desired (ls_ (self w)) = Some d ->
  one_default_action d ->
  elbv2.Port d = Some p ->
  elbv2.Protocol d = Some proto ->
  echoes_create ELBV2svc ->
  exists w1 input,
    Reconcile (Some o) w = Ok None w1 /\
    calls w1 = (calls w ++ [CallCreateListener input])%list /\
    Reconcile (Some o) w1 = Ok None w1.
Proof.
  destruct w as [[[c0 d0] r del] cs ev]. simpl.
  intros -> -> [a Ha] Hp Hproto Hecho.
  destruct d as [certs das larn lbarn port pr ssl]. simpl in *. subst.
  pose (tg := target_of r (TargetGroups o) (elbv2.TargetGroupArn a)).
  destruct (Hecho (elbv2.mkCreateListenerInput certs (LoadBalancerArn o)
                     (Some proto) (Some p) ssl
                     (Some [Some (elbv2.mkAction (elbv2.Type_ a) tg)])))
    as (arn & _ & Hanswer).
  simpl in Hanswer.
  assert (Hrun : exists w1,
            Reconcile (Some o)
              (mkWorld (mkListenerT
                          (mk_ls None
                             (Some (elbv2.mkListener certs (Some [Some a]) larn
                                      lbarn (Some p) (Some proto) ssl)))
                          r del) cs ev) = Ok None w1 /\
            calls w1 = (cs ++ [CallCreateListener
                                 (elbv2.mkCreateListenerInput certs (LoadBalancerArn o)
                                    (Some proto) (Some p) ssl
                                    (Some [Some (elbv2.mkAction (elbv2.Type_ a) tg)]))])%list /\
            rules (self w1) = r /\
            current (ls_ (self w1)) =
              Some (elbv2.mkListener certs
                      (Some [Some (elbv2.mkAction (elbv2.Type_ a) tg)])
                      (Some arn) (LoadBalancerArn o) (Some p) (Some proto) ssl) /\
            desired (ls_ (self w1)) =
              Some (elbv2.mkListener certs
                      (Some [Some (elbv2.mkAction (elbv2.Type_ a) tg)])
                      larn (LoadBalancerArn o) (Some p) (Some proto) ssl)).
  { unfold Reconcile, tg, target_of in *. unfold_go. simpl.
    destruct (rs_DefaultRule r) as [dr|]; simpl;
      rewrite ?elbv2_Action_eta in *; rewrite Hanswer; simpl;
      eexists; repeat split. }
  destruct Hrun as (w1 & Hrun & Hcalls & Hrules & Hcur & Hdes).
  exists w1. eexists. split; [exact Hrun|]. split; [exact Hcalls|].
  rewrite (Reconcile_in_sync (Some o) w1 _ _
             (elbv2.mkListener certs
                (Some [Some (elbv2.mkAction (elbv2.Type_ a) tg)])
                larn (LoadBalancerArn o) (Some p) (Some proto) ssl) Hcur Hdes).
  - f_equal. apply with_desired_eq. exact Hdes.
  - rewrite Hrules. unfold resolved_if, resolved, elbv2.assign_TargetGroupArn0.
    simpl. unfold tg, target_of.
    destruct (rs_DefaultRule r); reflexivity.
  - repeat split.
Qed.


(** X7. Modification converges: when the five fields differ and the control
    plane echoes a modification (the current snapshot has an ARN, the
    desired one a port and a protocol), [Reconcile] sends one
    [ModifyListener] addressed by the ARN of current and returns nil, and a
    second [Reconcile] on the world it left returns nil without a request
    and changes nothing. *)
Theorem Reconcile_modify_converges (o : ReconcileOptions) (w : World)
  (c d d' : elbv2.Listener) (arn : string) (p : Z) (proto : string) :
  current (ls_ (self w)) = Some c ->
  desired (ls_ (self w)) = Some d ->
  resolved (rules (self w)) (TargetGroups o) d = Some d' ->
  ~ same_fields c d' ->
  elbv2.ListenerArn c = Some arn ->
  elbv2.Port d = Some p ->
  elbv2.Protocol d = Some proto ->
  echoes_modify ELBV2svc ->
  exists w1 input,
    Reconcile (Some o) w = Ok None w1 /\
    calls w1 = (calls w ++ [CallModifyListener input])%list /\
    elbv2.modify_ListenerArn input = Some arn /\
    Reconcile (Some o) w1 = Ok None w1.
Proof.
  destruct w as [[[c0 d0] r del] cs ev]. simpl.
  intros -> -> Hres Hdiff Harn Hp Hproto Hecho.
  assert (Hres' : resolved_if (Some o) r d = Some d') by exact Hres.
  destruct (resolved_if_same_but_writes _ _ _ _ Hres')
    as ((Hport & Hprot & _) & _).
  rewrite Hp in Hport. rewrite Hproto in Hprot.
  assert (Hb : same_fieldsb c d' = false).
  { destruct (same_fieldsb c d') eqn:E; [|reflexivity].
    exfalso. apply Hdiff. apply same_fieldsb_iff. exact E. }
  destruct (Hecho (elbv2.mkModifyListenerInput (elbv2.ListenerArn c)
                     (elbv2.Certificates d') (elbv2.Port d') (elbv2.Protocol d')
                     (elbv2.SslPolicy d') (elbv2.DefaultActions d')))
    as (lb & Hanswer).
  simpl in Hanswer.
  pose (c1 := elbv2.mkListener (elbv2.Certificates d') (elbv2.DefaultActions d')
                (Some arn) lb (Some p) (Some proto) (elbv2.SslPolicy d')).
  assert (Hrun : exists w1,
            Reconcile (Some o)
              (mkWorld (mkListenerT (mk_ls (Some c) (Some d)) r del) cs ev)
            = Ok None w1 /\
            calls w1 = (cs ++ [CallModifyListener
                                 (elbv2.mkModifyListenerInput (elbv2.ListenerArn c)
                                    (elbv2.Certificates d') (elbv2.Port d')
                                    (elbv2.Protocol d') (elbv2.SslPolicy d')
                                    (elbv2.DefaultActions d'))])%list /\
            rules (self w1) = r /\
            current (ls_ (self w1)) = Some c1 /\
            desired (ls_ (self w1)) = Some d').
  { unfold Reconcile, bind, get_self. simpl.
    rewrite needsModification_run. simpl.
    change (match rs_DefaultRule r with
            | Some defaultRule =>
                elbv2.assign_TargetGroupArn0
                  (rs_TargetGroupArn defaultRule (TargetGroups o)) d
            | None => Some d
            end) with (resolved r (TargetGroups o) d).
    rewrite Hres, Hb. simpl.
    unfold_go. simpl. rewrite Hanswer. simpl.
    rewrite Hport, Harn, Hprot. simpl.
    eexists. repeat split. }
  destruct Hrun as (w1 & Hrun & Hcalls & Hrules & Hcur & Hdes).
  exists w1. eexists. split; [exact Hrun|]. split; [exact Hcalls|].
  split; [exact Harn|].
  rewrite (Reconcile_in_sync (Some o) w1 c1 d' d' Hcur Hdes).
  - f_equal. apply with_desired_eq. exact Hdes.
  - rewrite Hrules. exact (resolved_if_idem _ _ _ _ Hres').
  - repeat split; simpl; congruence.
Qed.


(** X8. A listener fresh from [NewDesiredListener], with whatever rules its
    owner attached, makes [Reconcile] send exactly one request, a
    [CreateListener] for the load balancer of the options that carries the
    port of the descriptor, the protocol and certificate the constructor
    chose, the SSL policy it attached, and one forward action to the target
    group of the default rule (none without a default rule). *)
Theorem Reconcile_of_NewDesiredListener (o : NewDesiredListenerOptions)
  (ro : ReconcileOptions) (r : rs_Rules) (cs : list ApiCall) (ev : list Event) :
  calls (world_of (Reconcile (Some ro)
                     (mkWorld (with_rules r (NewDesiredListener o)) cs ev))) =
  (cs ++ [CallCreateListener
            (elbv2.mkCreateListenerInput
               (if upgrades o
                then Some [Some (elbv2.mkCertificate (o_CertificateArn o))]
                else None)
               (LoadBalancerArn ro)
               (Some (if upgrades o then "HTTPS" else "HTTP"))
               (Some (PortData_Port (o_Port o)))
               (if String.eqb (Scheme (o_Port o)) "HTTPS"
                then o_SslPolicy o else None)
               (Some [Some (elbv2.mkAction (Some "forward")
                              (target_of r (TargetGroups ro) None))]))])%list.
Proof.
  destruct o as [[port sch] cert ssl].
  unfold upgrades, target_of, with_rules, NewDesiredListener, Reconcile.
  unfold_go. simpl.
  destruct cert as [cert|], ssl as [ssl|]; simpl;
    destruct (String.eqb sch "HTTPS"); simpl;
    destruct (rs_DefaultRule r); simpl;
    repeat break_match; simpl; reflexivity.
Qed.

(** X9. A listener fresh from [NewCurrentListener] is only ever removed:
    [Reconcile] sends exactly one [RemoveListener], addressed by the ARN of
    the wrapped snapshot; when the wrapped pointer is nil it returns nil and
    does nothing. *)
Theorem Reconcile_of_NewCurrentListener (o : NewCurrentListenerOptions)
  (rOpts : ptr ReconcileOptions) (r : rs_Rules) (cs : list ApiCall)
  (ev : list Event) :
  let w := mkWorld (with_rules r (NewCurrentListener o)) cs ev in
  match o_Listener o with
  | Some c =>
      calls (world_of (Reconcile rOpts w)) =
      (cs ++ [CallRemoveListener (elbv2.ListenerArn c)])%list
  | None => Reconcile rOpts w = Ok None w
  end.
Proof.
  destruct o as [[c|]]; simpl; [|reflexivity].
  unfold with_rules, NewCurrentListener, Reconcile. unfold_go. simpl.
  repeat break_match; simpl; reflexivity.
Qed.

(** X10. [StripDesiredState] drops the desired snapshot, keeps current and
    [deleted], hands the rules to their own [StripDesiredState], and sends
    and emits nothing; the next [Reconcile] can only remove: it sends one
    [RemoveListener] at the ARN of current when there is a current
    snapshot, and returns nil without a request when there is none. *)
Theorem StripDesiredState_then_Reconcile (rOpts : ptr ReconcileOptions) (w : World) :
  exists w1,
    StripDesiredState w = Ok tt w1 /\
    desired (ls_ (self w1)) = None /\
    current (ls_ (self w1)) = current (ls_ (self w)) /\
    deleted (self w1) = deleted (self w) /\
    rules (self w1) = rs_StripDesiredState (rules (self w)) /\
    calls w1 = calls w /\ events w1 = events w /\
    match current (ls_ (self w)) with
    | Some c =>
        calls (world_of (Reconcile rOpts w1)) =
        (calls w ++ [CallRemoveListener (elbv2.ListenerArn c)])%list
    | None => Reconcile rOpts w1 = Ok None w1
    end.
Proof.
  destruct w as [[[c d] r del] cs ev].
  eexists. split; [reflexivity|]. simpl. repeat split.
  destruct c as [c|]; [|reflexivity].
  unfold Reconcile. unfold_go. simpl.
  repeat break_match; simpl; reflexivity.
Qed.

(** X11. [stripCurrentState] drops the current snapshot, keeps desired and
    [deleted], hands the rules to their own [StripCurrentState], and sends
    and emits nothing; the next [Reconcile] can only create: any request it
    sends is one [CreateListener], and with no desired snapshot it returns
    nil without a request. *)
Theorem stripCurrentState_then_Reconcile (rOpts : ptr ReconcileOptions) (w : World) :
  exists w1,
    stripCurrentState w = Ok tt w1 /\
    current (ls_ (self w1)) = None /\
    desired (ls_ (self w1)) = desired (ls_ (self w)) /\
    deleted (self w1) = deleted (self w) /\
    rules (self w1) = rs_StripCurrentState (rules (self w)) /\
    calls w1 = calls w /\ events w1 = events w /\
    match desired (ls_ (self w)) with
    | Some _ =>
        calls (world_of (Reconcile rOpts w1)) = calls w \/
        exists input,
          calls (world_of (Reconcile rOpts w1)) =
          (calls w ++ [CallCreateListener input])%list
    | None => Reconcile rOpts w1 = Ok None w1
    end.
Proof.
  destruct w as [[[c d] r del] cs ev].
  eexists. split; [reflexivity|]. simpl. repeat split.
  destruct d as [d|]; [|reflexivity].
  unfold Reconcile. unfold_go. simpl.
  repeat break_match; simpl;
    first [left; reflexivity | right; eexists; reflexivity].
Qed.


(** X12. [Reconcile] does not look at [deleted]: after a removal the control
    plane accepted, the listener still has its current snapshot, and a
    second [Reconcile] sends the same [RemoveListener] again. *)
Theorem Reconcile_removes_again (o : ReconcileOptions) (w : World)
  (c : elbv2.Listener) (p : Z) :
  desired (ls_ (self w)) = None ->
  current (ls_ (self w)) = Some c ->
  elbv2.Port c = Some p ->
  RemoveListener ELBV2svc (elbv2.ListenerArn c) = None ->
  exists w1 w2,
    Reconcile (Some o) w = Ok None w1 /\
    deleted (self w1) = true /\
    current (ls_ (self w1)) = Some c /\
    Reconcile (Some o) w1 = Ok None w2 /\
    self w2 = self w1 /\
    calls w2 = (calls w ++ [CallRemoveListener (elbv2.ListenerArn c);
                            CallRemoveListener (elbv2.ListenerArn c)])%list.
Proof.
  destruct w as [[[c0 d0] r del] cs ev]. simpl.
  intros -> -> Hp Hok.
  eexists. eexists.
  unfold Reconcile. unfold_go. simpl. rewrite Hok. simpl. rewrite Hp. simpl.
  split; [reflexivity|]. simpl. rewrite Hok. simpl. rewrite Hp. simpl.
  repeat split. rewrite <- app_assoc. reflexivity.
Qed.

(** X13. With nil options [Reconcile] returns only when there is nothing to
    do, and then it has changed nothing; a creation panics before any
    request, a removal panics after its request was sent. *)
Theorem Reconcile_nil_options (w : World) :
  (forall e w', Reconcile None w = Ok e w' -> e = None /\ w' = w) /\
  (current (ls_ (self w)) = None -> desired (ls_ (self w)) <> None ->
   Reconcile None w = Panic w) /\
  (forall c, desired (ls_ (self w)) = None -> current (ls_ (self w)) = Some c ->
   panicked (Reconcile None w) = true /\
   calls (world_of (Reconcile None w)) =
   (calls w ++ [CallRemoveListener (elbv2.ListenerArn c)])%list).
Proof.
  run_Reconcile w. split; [|split].
  - intros e w'.
    destruct d as [d|], c as [c|]; simpl.
    + run_diff. destruct (same_fieldsb c d); simpl.
      * intros E. injection E as <- <-. split; reflexivity.
      * unfold_go. simpl. repeat break_match; simpl; discriminate.
    + discriminate.
    + unfold_go. simpl. repeat break_match; simpl; discriminate.
    + intros E. injection E as <- <-. split; reflexivity.
  - intros -> Hd. destruct d as [d|]; [reflexivity|]. exfalso. apply Hd. reflexivity.
  - intros c1 -> ->. unfold_go. simpl.
    repeat break_match; simpl; split; reflexivity.
Qed.

(** X14. [create] sends its request exactly when the options are not nil
    and the desired snapshot is there with a default action at index 0 that
    is not nil; otherwise it panics without a request.  The request carries
    one default action, however many the desired snapshot has. *)
Theorem create_sends_iff (rOpts : ptr ReconcileOptions) (w : World) :
  ((exists input,
      calls (world_of (create rOpts w)) = (calls w ++ [CallCreateListener input])%list /\
      len (elbv2.create_DefaultActions input) = 1%nat)
   <->
   (rOpts <> None /\
    exists d a, desired (ls_ (self w)) = Some d /\
                index0 (elbv2.DefaultActions d) = Some (Some a))) /\
  ((rOpts = None \/
    forall d a, desired (ls_ (self w)) = Some d ->
                index0 (elbv2.DefaultActions d) <> Some (Some a)) ->
   panicked (create rOpts w) = true /\
   calls (world_of (create rOpts w)) = calls w).
Proof.
  destruct w as [[[c d] r del] cs ev]. simpl.
  destruct rOpts as [o|].
  - destruct d as [[certs das larn lbarn port proto ssl]|].
    + destruct das as [[|[a|] rest]|];
        unfold elbv2.assign_TargetGroupArn0; unfold_go; simpl.
      * split.
        -- split.
           ++ intros (input & Hcalls & _). exfalso.
              destruct (rs_DefaultRule r); simpl in Hcalls;
                exact (no_call _ _ Hcalls).
           ++ intros (_ & d & a & E & Ha). injection E as <-. discriminate.
        -- intros _. destruct (rs_DefaultRule r); split; reflexivity.
      * split.
        -- split.
           ++ intros _. split; [discriminate|].
              eexists; eexists. split; reflexivity.
           ++ intros _. destruct (rs_DefaultRule r); simpl;
                repeat break_match; simpl; eexists; split; reflexivity.
        -- intros [E|H]; [discriminate|].
           exfalso. apply (H _ a eq_refl). reflexivity.
      * split.
        -- split.
           ++ intros (input & Hcalls & _). exfalso.
              destruct (rs_DefaultRule r); simpl in Hcalls;
                exact (no_call _ _ Hcalls).
           ++ intros (_ & d & a & E & Ha). injection E as <-. discriminate.
        -- intros _. destruct (rs_DefaultRule r); split; reflexivity.
      * split.
        -- split.
           ++ intros (input & Hcalls & _). exfalso.
              destruct (rs_DefaultRule r); simpl in Hcalls;
                exact (no_call _ _ Hcalls).
           ++ intros (_ & d & a & E & Ha). injection E as <-. discriminate.
        -- intros _. destruct (rs_DefaultRule r); split; reflexivity.
    + unfold_go. simpl. split.
      * split.
        -- intros (input & Hcalls & _). exfalso. exact (no_call _ _ Hcalls).
        -- intros (_ & d & a & E & _). discriminate.
      * intros _. split; reflexivity.
  - unfold_go. simpl. split.
    + split.
      * intros (input & Hcalls & _). exfalso. exact (no_call _ _ Hcalls).
      * intros (H & _). exfalso. apply H. reflexivity.
    + intros _. split; reflexivity.
Qed.

(** X15. An accepted request whose answer has no snapshot at index 0 (a nil
    output, or no listeners) makes [create] and [modify] panic after the
    request, with the listener as it was but for the writes [create] makes
    to the desired snapshot: current is not replaced. *)
Theorem accepted_without_snapshot (rOpts : ptr ReconcileOptions) (w : World) :
  (forall input out,
     calls (world_of (create rOpts w)) = (calls w ++ [CallCreateListener input])%list ->
     CreateListener ELBV2svc input = (out, None) ->
     (out = None \/ exists l, out = Some l /\ index0 (elbv2.Listeners l) = None) ->
     panicked (create rOpts w) = true /\
     current (ls_ (self (world_of (create rOpts w)))) = current (ls_ (self w))) /\
  (forall input out,
     current (ls_ (self w)) <> None ->
     calls (world_of (modify rOpts w)) = (calls w ++ [CallModifyListener input])%list ->
     ModifyListener ELBV2svc input = (out, None) ->
     (out = None \/ exists l, out = Some l /\ index0 (elbv2.Listeners l) = None) ->
     panicked (modify rOpts w) = true /\
     self (world_of (modify rOpts w)) = self w).
Proof.
  destruct w as [[[c d] r del] cs ev]. simpl. split.
  - intros input out.
    destruct rOpts as [o|], d as [[certs das larn lbarn port proto ssl]|];
      unfold_go; simpl;
      try (intros Hcalls; exfalso; exact (no_call _ _ Hcalls)).
    unfold elbv2.assign_TargetGroupArn0.
    destruct das as [[|[a|] rest]|]; simpl;
      repeat break_match; simpl; intros Hcalls; the_call Hcalls;
      intros Hanswer Hout;
      rewrite Hanswer in *; simpl in *;
      try discriminate;
      try (split; reflexivity);
      destruct Hout as [Hout|(l' & Hout & Hl)]; subst; try discriminate;
      injection Hout as <-; congruence.
  - intros input out Hc.
    destruct c as [c|]; [|exfalso; apply Hc; reflexivity].
    unfold_go; simpl.
    repeat break_match; simpl; intros Hcalls; the_call Hcalls;
      intros Hanswer Hout;
      rewrite Hanswer in *; simpl in *;
      try discriminate;
      try (split; reflexivity);
      destruct Hout as [Hout|(l' & Hout & Hl)]; subst; try discriminate;
      injection Hout as <-; congruence.
Qed.


(** A [Reconcile] that returns nil without a request found both snapshots
    absent, or both present and equal on the five fields. *)
Lemma Reconcile_noop_cases (rOpts : ptr ReconcileOptions) (w w1 : World) :
  Reconcile rOpts w = Ok None w1 ->
  calls w1 = calls w ->
  (current (ls_ (self w)) = None /\ desired (ls_ (self w)) = None /\ w1 = w) \/
  exists c d d',
    current (ls_ (self w)) = Some c /\ desired (ls_ (self w)) = Some d /\
    resolved_if rOpts (rules (self w)) d = Some d' /\
    same_fields c d' /\ w1 = with_desired (Some d') w.
Proof.
  run_Reconcile w.
  destruct d as [d|], c as [c|]; simpl.
  - run_diff.
    destruct (resolved_if rOpts r d) as [d'|] eqn:Hres; simpl; [|discriminate].
    destruct (same_fieldsb c d') eqn:Hsame; simpl.
    + intros E _. injection E as <-. right.
      exists c, d, d'. repeat split; try apply same_fieldsb_iff; assumption.
    + unfold_go. simpl.
      repeat break_match; simpl; intros E Hcalls; try discriminate;
        injection E as <-; simpl in Hcalls; symmetry in Hcalls;
        exfalso; exact (no_call _ _ Hcalls).
  - unfold_go. simpl.
    repeat break_match; simpl; intros E Hcalls; try discriminate;
      injection E as <-; simpl in Hcalls; symmetry in Hcalls;
      exfalso; exact (no_call _ _ Hcalls).
  - unfold_go. simpl.
    repeat break_match; simpl; intros E Hcalls; try discriminate;
      injection E as <-; simpl in Hcalls; symmetry in Hcalls;
      exfalso; exact (no_call _ _ Hcalls).
  - intros E _. injection E as <-. left. repeat split.
Qed.

(** X16. A [Reconcile] that returns nil without a request is stable: run
    again on the world it left, it returns nil again and leaves that world
    as it is. *)
Theorem Reconcile_noop_stable (rOpts : ptr ReconcileOptions) (w w1 : World) :
  Reconcile rOpts w = Ok None w1 ->
  calls w1 = calls w ->
  Reconcile rOpts w1 = Ok None w1.
Proof.
  intros Hrun Hcalls.
  destruct (Reconcile_noop_cases rOpts w w1 Hrun Hcalls)
    as [(Hc & Hd & ->)|(c & d & d' & Hc & Hd & Hres & Hsame & ->)].
  - unfold Reconcile, bind, get_self. rewrite Hd, Hc. reflexivity.
  - rewrite (Reconcile_in_sync rOpts (with_desired (Some d') w) c d' d'
               Hc eq_refl (resolved_if_idem _ _ _ _ Hres) Hsame).
    reflexivity.
Qed.

(** X17. [modify] of a present current snapshot never writes the desired
    snapshot, the rules or [deleted], whatever the outcome, and the one
    request it sends (it sends none only when desired is nil, where it
    panics) is a [ModifyListener] addressed by the ARN of current that
    carries the certificates, port, protocol, SSL policy and the whole
    default-action slice of desired. *)
Theorem modify_frame (rOpts : ptr ReconcileOptions) (w : World) (c : elbv2.Listener) :
  current (ls_ (self w)) = Some c ->
  let w' := world_of (modify rOpts w) in
  desired (ls_ (self w')) = desired (ls_ (self w)) /\
  rules (self w') = rules (self w) /\
  deleted (self w') = deleted (self w) /\
  match desired (ls_ (self w)) with
  | Some d =>
      calls w' =
      (calls w ++ [CallModifyListener
                     (elbv2.mkModifyListenerInput (elbv2.ListenerArn c)
                        (elbv2.Certificates d) (elbv2.Port d) (elbv2.Protocol d)
                        (elbv2.SslPolicy d) (elbv2.DefaultActions d))])%list
  | None => modify rOpts w = Panic w
  end.
Proof.
  destruct w as [[[c0 d] r del] cs ev]. simpl. intros ->.
  destruct d as [d|]; unfold_go; simpl; [|repeat split].
  repeat break_match; simpl; repeat split.
Qed.

(** X18. [delete] never writes the two snapshots or the rules, whatever the
    outcome; with a current snapshot it sends exactly one [RemoveListener]
    at its ARN, and [deleted] is set exactly when the control plane accepts
    it (otherwise it keeps its value); without a current snapshot it panics
    before any request. *)
Theorem delete_frame (rOpts : ptr ReconcileOptions) (w : World) :
  let w' := world_of (delete rOpts w) in
  ls_ (self w') = ls_ (self w) /\
  rules (self w') = rules (self w) /\
  match current (ls_ (self w)) with
  | Some c =>
      calls w' = (calls w ++ [CallRemoveListener (elbv2.ListenerArn c)])%list /\
      deleted (self w') =
        match RemoveListener ELBV2svc (elbv2.ListenerArn c) with
        | None => true
        | Some _ => deleted (self w)
        end
  | None => delete rOpts w = Panic w
  end.
Proof.
  destruct w as [[[c d] r del] cs ev]. simpl.
  destruct c as [c|]; unfold_go; simpl; [|repeat split].
  repeat break_match; simpl; repeat split.
Qed.

Ltac one_event :=
  simpl;
  first [ exists []; split; [symmetry; apply app_nil_r|];
          split; [simpl; lia|]; intros Hne; exfalso; apply Hne; reflexivity
        | eexists; split; [reflexivity|];
          split; [simpl; lia|]; intros _; eexists; reflexivity ].

(** X19. Every run of [Reconcile], returning or panicking, emits at most one
    event, after the events already there, and emits none unless it has
    sent a request. *)
Theorem Reconcile_at_most_one_event (rOpts : ptr ReconcileOptions) (w : World) :
  exists evs,
    events (world_of (Reconcile rOpts w)) = (events w ++ evs)%list /\
    (List.length evs <= 1)%nat /\
    (evs <> [] ->
     exists c, calls (world_of (Reconcile rOpts w)) = (calls w ++ [c])%list).
Proof.
  run_Reconcile w.
  destruct d as [d|], c as [c|]; simpl.
  - run_diff.
    destruct (resolved_if rOpts r d) as [d'|]; simpl; [|one_event].
    destruct (same_fieldsb c d'); simpl; [one_event|].
    unfold_go. simpl. repeat break_match; one_event.
  - unfold_go. simpl. repeat break_match; one_event.
  - unfold_go. simpl. repeat break_match; one_event.
  - one_event.
Qed.

End Properties.

(** ** The statements on the sample collaborators *)

(** [Reconcile] on a listener that is only desired decides to create and
    sends its one creation. *)
Lemma Reconcile_selects_one_witness :
  let w := echo_world None (Some desired_443) in
  decision (Some echo_options) w = Create /\
  exists input,
    calls (world_of (Reconcile (Some echo_options) w)) = [CallCreateListener input].
Proof.
  intros w.
  assert (Hd : decision (Some echo_options) w = Create) by reflexivity.
  split; [exact Hd|].
  destruct (Reconcile_selects_one (C := Echo) (Some echo_options) w) as (_ & H).
  rewrite Hd in H. destruct H as (H & _).
  apply H. split; [discriminate|].
  exists desired_443, (elbv2.mkAction (Some "forward") None).
  split; reflexivity.
Defined.

(** C2, as stated, fails: a refused [create] returns the error and leaves
    another listener behind, with the load balancer ARN and the target
    group written to the desired snapshot. *)
Lemma failed_create_changes_desired :
  exists w',
    create (Some failing_options) (failing_world None (Some desired_443))
    = Ok (Some "AccessDenied") w' /\
    answer failing_client
      (CallCreateListener
         (elbv2.mkCreateListenerInput
            (Some [Some (elbv2.mkCertificate (Some "cert-1"))])
            (Some "arn:lb/1") (Some "HTTPS") (Some 443%Z) None
            (Some [Some (elbv2.mkAction (Some "forward") (Some "arn:tg/a"))])))
    = Some "AccessDenied" /\
    self w' <> self (failing_world None (Some desired_443)).
Proof.
  exists (world_of (create (Some failing_options)
                      (failing_world None (Some desired_443)))).
  split; [vm_compute; reflexivity|]. split; [reflexivity|].
  vm_compute. discriminate.
Defined.

Lemma failure_keeps_current_witness :
  let w := failing_world None (Some desired_443) in
  let w' := world_of (create (Some failing_options) w) in
  current (ls_ (self w')) = None /\
  deleted (self w') = false /\
  create (Some failing_options) w = Ok (Some "AccessDenied") w'.
Proof.
  intros w w'.
  destruct (failure_keeps_current (C := Failing) (Some failing_options) w
              (CallCreateListener
                 (elbv2.mkCreateListenerInput
                    (Some [Some (elbv2.mkCertificate (Some "cert-1"))])
                    (Some "arn:lb/1") (Some "HTTPS") (Some 443%Z) None
                    (Some [Some (elbv2.mkAction (Some "forward") (Some "arn:tg/a"))])))
              "AccessDenied" eq_refl) as (Hc & _ & _).
  destruct (Hc eq_refl) as (H1 & _ & H3 & _ & _ & H6 & _).
  split; [exact H1|]. split; [exact H3|].
  apply (H6 desired_443); [reflexivity | discriminate].
Defined.

(** The SSL policy alone differs: the diff says so. *)
Lemma needsModification_diff_witness :
  let c := listener_443 (Some "arn:tg/a") (Some "ELBSecurityPolicy-2016-08") in
  let w := echo_world (Some c) (Some desired_443) in
  exists b,
    needsModification (Some echo_options) w
    = Ok b (with_desired (Some (desired_443_to (Some "arn:tg/a"))) w)
    /\ b = true.
Proof.
  intros c w.
  destruct (needsModification_diff (C := Echo) (Some echo_options) w
              desired_443 (desired_443_to (Some "arn:tg/a")) eq_refl eq_refl)
    as (H & _ & _).
  destruct (H c eq_refl) as (b & Hrun & _ & Hssl).
  exists b. split; [exact Hrun|]. apply Hssl. simpl. discriminate.
Defined.


Lemma echo_client_echoes : echoes_create echo_client.
Proof.
  intros input. exists "arn:aws:elasticloadbalancing:listener/app/lb/1".
  split; [discriminate | reflexivity].
Defined.


(** C5, as stated, fails: with an HTTPS scheme, an SSL policy and no
    certificate the snapshot stays HTTP and carries the SSL policy. *)
Lemma ssl_policy_without_certificate :
  exists d,
    desired (ls_ (NewDesiredListener (C := Echo) https_without_certificate)) = Some d /\
    o_CertificateArn https_without_certificate = None /\
    elbv2.Protocol d = Some "HTTP" /\
    elbv2.Certificates d = None /\
    elbv2.SslPolicy d = Some "ELBSecurityPolicy-2016-08".
Proof.
  eexists. split; [reflexivity|]. repeat split.
Defined.

Lemma modify_self_heals_witness :
  modify (Some echo_options) (echo_world None (Some desired_443))
  = create (Some echo_options) (echo_world None (Some desired_443)).
Proof.
  apply (modify_self_heals (C := Echo) (Some echo_options)
           (echo_world None (Some desired_443)) desired_443);
    reflexivity.
Defined.

Lemma delete_only_current_witness :
  let c := listener_443 (Some "arn:tg/a") None in
  let w := echo_world (Some c) None in
  delete (Some echo_options) w
  = Ok None (mkWorld (marked_deleted (self w))
                     [CallRemoveListener (Some "arn:listener/443")] []) /\
  Reconcile (Some echo_options) (echo_world None None)
  = Ok None (echo_world None None).
Proof.
  intros c w. split.
  - destruct (delete_only_current (C := Echo) (Some echo_options) w) as (H & _).
    destruct (H c eq_refl eq_refl) as [Hd _]. exact Hd.
  - destruct (delete_only_current (C := Echo) (Some echo_options)
                (echo_world None None)) as (_ & H & _).
    apply H; reflexivity.
Defined.

(** The rule now resolves to another target group, nothing else differs. *)
Lemma needsModification_resolves_as_create_witness :
  let c := listener_443 (Some "arn:tg/old") None in
  let d := desired_443_to (Some "arn:tg/old") in
  let w := echo_world (Some c) (Some d) in
  same_fields c d /\
  needsModification (Some echo_options) w
  = Ok true (with_desired (Some (desired_443_to (Some "arn:tg/a"))) w).
Proof.
  intros c d w.
  assert (Hs : same_fields c d) by (repeat split).
  split; [exact Hs|].
  destruct (needsModification_resolves_as_create (C := Echo) echo_options w
              c d "svc-a" (elbv2.mkAction (Some "forward") (Some "arn:tg/old")) []
              eq_refl eq_refl eq_refl eq_refl) as (_ & _ & H).
  apply H; [exact Hs|]. simpl. discriminate.
Defined.

(** The diff returns false, [Reconcile] does nothing, and the desired
    snapshot has changed. *)
Lemma needsModification_writes_desired_witness :
  let c := listener_443 (Some "arn:tg/a") None in
  let w := echo_world (Some c) (Some desired_443) in
  let w' := with_desired (Some (desired_443_to (Some "arn:tg/a"))) w in
  needsModification (Some echo_options) w = Ok false w' /\
  Reconcile (Some echo_options) w = Ok None w' /\
  calls w' = calls w /\
  self w' <> self w.
Proof.
  intros c w w'.
  destruct (needsModification_writes_desired (C := Echo) echo_options w
              desired_443 "svc-a" (elbv2.mkAction (Some "forward") None) []
              eq_refl eq_refl eq_refl) as (_ & Hne & H).
  destruct (H c eq_refl) as [H1 H2]; [repeat split|].
  split; [exact H1|]. split; [exact H2|]. split; [reflexivity|].
  apply Hne. simpl. discriminate.
Defined.

(** C10, as stated, fails: [Reconcile] reaches the diff with both snapshots
    present and a desired snapshot without default actions, which does not
    meet the precondition, and panics there before any request. *)
Lemma Reconcile_diff_without_default_action :
  let w := echo_world (Some (listener_443 (Some "arn:tg/a") None)) (Some no_actions_80) in
  current (ls_ (self w)) <> None /\
  desired (ls_ (self w)) <> None /\
  ~ diff_precondition (Some echo_options) w /\
  needsModification (Some echo_options) w = Panic w /\
  Reconcile (Some echo_options) w = Panic w.
Proof.
  intros w. split; [discriminate|]. split; [discriminate|]. split.
  - intros [H|[H|(d & Hd & Hlen)]]; try discriminate.
    injection Hd as <-. simpl in Hlen. lia.
  - split; reflexivity.
Defined.

Lemma needsModification_precondition_witness :
  let w := echo_world (Some (listener_443 (Some "arn:tg/a") None)) (Some desired_443) in
  diff_precondition (Some echo_options) w /\
  panicked (needsModification (Some echo_options) w) = false.
Proof.
  intros w.
  destruct (needsModification_precondition (C := Echo) (Some echo_options) w)
    as (_ & _ & _ & H & _).
  destruct (H desired_443 eq_refl) as (Hp & b & d' & Hrun & _).
  - exists (elbv2.mkAction (Some "forward") None). reflexivity.
  - split; [exact Hp|]. rewrite Hrun. reflexivity.
Defined.

(** ** The further statements on the sample collaborators *)

Lemma needsModification_idempotent_witness :
  let w := echo_world (Some (listener_443 (Some "arn:tg/a") None)) (Some desired_443) in
  let w1 := with_desired (Some (desired_443_to (Some "arn:tg/a"))) w in
  needsModification (Some echo_options) w = Ok false w1 /\
  needsModification (Some echo_options) w1 = Ok false w1.
Proof.
  intros w w1. split; [reflexivity|].
  apply (needsModification_idempotent (C := Echo) (Some echo_options) w w1 false).
  reflexivity.
Defined.

Lemma echo_client_echoes_modify : echoes_modify echo_client.
Proof. intros input. exists None. reflexivity. Defined.

(** A refused creation: the error returned is the answer to the request. *)
Lemma Reconcile_error_is_answer_witness :
  exists c w',
    Reconcile (Some failing_options) (failing_world None (Some desired_443))
    = Ok (Some "AccessDenied") w' /\
    calls w' = [c] /\ answer failing_client c = Some "AccessDenied".
Proof.
  destruct (Reconcile_error_is_answer (C := Failing) (Some failing_options)
              (failing_world None (Some desired_443))) as (H & _).
  destruct (H "AccessDenied"
              (world_of (Reconcile (Some failing_options)
                           (failing_world None (Some desired_443)))))
    as (c & Hcalls & Hanswer).
  - vm_compute. reflexivity.
  - exists c. eexists. split; [vm_compute; reflexivity|].
    split; [exact Hcalls | exact Hanswer].
Defined.

(** A refused creation comes with its one warning. *)
Lemma Reconcile_events_witness :
  exists c p w',
    Reconcile (Some failing_options) (failing_world None (Some desired_443))
    = Ok (Some "AccessDenied") w' /\
    events w' = [failure_event c p "AccessDenied"].
Proof.
  destruct (Reconcile_events (C := Failing) (Some failing_options)
              (failing_world None (Some desired_443))) as (H & _).
  destruct (H "AccessDenied"
              (world_of (Reconcile (Some failing_options)
                           (failing_world None (Some desired_443)))))
    as (c & p & _ & Hevents).
  - vm_compute. reflexivity.
  - exists c, p. eexists. split; [vm_compute; reflexivity | exact Hevents].
Defined.

Lemma Reconcile_create_converges_witness :
  exists w1 input,
    Reconcile (Some echo_options) (echo_world None (Some desired_443)) = Ok None w1 /\
    calls w1 = [CallCreateListener input] /\
    Reconcile (Some echo_options) w1 = Ok None w1.
Proof.
  apply (Reconcile_create_converges (C := Echo) echo_options
           (echo_world None (Some desired_443)) desired_443 443%Z "HTTPS").
  - reflexivity.
  - reflexivity.
  - exists (elbv2.mkAction (Some "forward") None). reflexivity.
  - reflexivity.
  - reflexivity.
  - exact echo_client_echoes.
Defined.

(** The rule resolves to another target group than the one in place. *)
Lemma Reconcile_modify_converges_witness :
  let w := echo_world (Some (listener_443 (Some "arn:tg/old") None))
                      (Some (desired_443_to (Some "arn:tg/old"))) in
  exists w1 input,
    Reconcile (Some echo_options) w = Ok None w1 /\
    calls w1 = [CallModifyListener input] /\
    elbv2.modify_ListenerArn input = Some "arn:listener/443" /\
    Reconcile (Some echo_options) w1 = Ok None w1.
Proof.
  intros w.
  apply (Reconcile_modify_converges (C := Echo) echo_options w
           (listener_443 (Some "arn:tg/old") None)
           (desired_443_to (Some "arn:tg/old"))
           (desired_443_to (Some "arn:tg/a"))
           "arn:listener/443" 443%Z "HTTPS").
  - reflexivity.
  - reflexivity.
  - reflexivity.
  - intros (_ & _ & _ & H & _). discriminate H.
  - reflexivity.
  - reflexivity.
  - reflexivity.
  - exact echo_client_echoes_modify.
Defined.

Lemma Reconcile_removes_again_witness :
  let c := listener_443 (Some "arn:tg/a") None in
  exists w1 w2,
    Reconcile (Some echo_options) (echo_world (Some c) None) = Ok None w1 /\
    deleted (self w1) = true /\
    Reconcile (Some echo_options) w1 = Ok None w2 /\
    calls w2 = [CallRemoveListener (Some "arn:listener/443");
                CallRemoveListener (Some "arn:listener/443")].
Proof.
  intros c.
  destruct (Reconcile_removes_again (C := Echo) echo_options
              (echo_world (Some c) None) c 443%Z eq_refl eq_refl eq_refl eq_refl)
    as (w1 & w2 & H1 & H2 & _ & H4 & _ & H6).
  exists w1, w2. repeat split; assumption.
Defined.

(** With nil options: in sync, nothing happens; to be created, a panic. *)
Lemma Reconcile_nil_options_witness :
  let w := echo_world (Some (listener_443 None None)) (Some desired_443) in
  Reconcile None w = Ok None w /\
  Reconcile None (echo_world None (Some desired_443))
  = Panic (echo_world None (Some desired_443)).
Proof.
  intros w. split; [reflexivity|].
  destruct (Reconcile_nil_options (C := Echo) (echo_world None (Some desired_443)))
    as (_ & H & _).
  apply H; [reflexivity | discriminate].
Defined.

(** Without default actions no request leaves. *)
Lemma create_sends_iff_witness :
  let w := echo_world None (Some no_actions_80) in
  panicked (create (Some echo_options) w) = true /\
  calls (world_of (create (Some echo_options) w)) = [].
Proof.
  intros w.
  destruct (create_sends_iff (C := Echo) (Some echo_options) w) as (_ & H).
  apply H. right. intros d a Hd. injection Hd as <-. discriminate.
Defined.

Lemma accepted_without_snapshot_witness :
  let w := mute_world None (Some desired_443) in
  panicked (create (Some mute_options) w) = true /\
  current (ls_ (self (world_of (create (Some mute_options) w)))) = None.
Proof.
  intros w.
  destruct (accepted_without_snapshot (C := Mute) (Some mute_options) w) as (H & _).
  apply (H (elbv2.mkCreateListenerInput
              (Some [Some (elbv2.mkCertificate (Some "cert-1"))])
              (Some "arn:lb/1") (Some "HTTPS") (Some 443%Z) None
              (Some [Some (elbv2.mkAction (Some "forward") (Some "arn:tg/a"))]))
           (Some (elbv2.mkListenerOutput None))).
  - reflexivity.
  - reflexivity.
  - right. eexists. split; reflexivity.
Defined.

Lemma Reconcile_noop_stable_witness :
  let w := echo_world (Some (listener_443 (Some "arn:tg/a") None)) (Some desired_443) in
  let w1 := with_desired (Some (desired_443_to (Some "arn:tg/a"))) w in
  Reconcile (Some echo_options) w = Ok None w1 /\
  Reconcile (Some echo_options) w1 = Ok None w1.
Proof.
  intros w w1. split; [reflexivity|].
  apply (Reconcile_noop_stable (C := Echo) (Some echo_options) w w1);
    reflexivity.
Defined.

Lemma modify_frame_witness :
  let c := listener_443 (Some "arn:tg/old") None in
  let w := failing_world (Some c) (Some desired_443) in
  desired (ls_ (self (world_of (modify (Some failing_options) w)))) = Some desired_443 /\
  calls (world_of (modify (Some failing_options) w)) =
  [CallModifyListener
     (elbv2.mkModifyListenerInput (Some "arn:listener/443")
        (Some [Some (elbv2.mkCertificate (Some "cert-1"))])
        (Some 443%Z) (Some "HTTPS") None
        (Some [Some (elbv2.mkAction (Some "forward") None)]))].
Proof.
  intros c w.
  destruct (modify_frame (C := Failing) (Some failing_options) w c eq_refl)
    as (H1 & _ & _ & H4).
  split; [exact H1 | exact H4].
Defined.
